(** * Bank transaction analysis

    A model of [bank_analysis.py]: a linear script that builds a table of
    twenty literal transactions, inspects it (missing values, duplicates,
    outliers), retypes two columns as categorical, and computes a few
    aggregates.  The slice of pandas the script calls is modelled in
    [Module Pandas]; the script itself, statement by statement, in
    [Module Script]. *)

From Stdlib Require Import ZArith String Ascii List Bool Lia.
From Stdlib Require Import Permutation Sorted Relations.
From Stdlib Require Import Floats.PrimFloat Numbers.Cyclic.Int63.Uint63.
Import ListNotations.

Local Open Scope string_scope.
Local Open Scope list_scope.
Local Open Scope Z_scope.

(** ** The option monad: a Python exception is [None]. *)

Definition bind {A B : Type} (m : option A) (k : A -> option B) : option B :=
  match m with
  | Some a => k a
  | None => None
  end.

Notation "x <- m ;; k" := (bind m (fun x => k))
  (at level 61, m at next level, right associativity).

(** ** The part of pandas the script uses *)

Module Pandas.

(** A cell of a table: a Python int, a Python str, or a missing value. *)
Inductive cell : Type :=
| Int (z : Z)
| Str (s : string)
| NaN.

Definition cell_eqb (a b : cell) : bool :=
  match a, b with
  | Int x, Int y => x =? y
  | Str s, Str t => String.eqb s t
  | NaN, NaN => true
  | _, _ => false
  end.

Definition isnull (c : cell) : bool :=
  match c with
  | NaN => true
  | _ => false
  end.

Definition is_int (c : cell) : bool :=
  match c with
  | Int _ => true
  | _ => false
  end.

Definition is_str (c : cell) : bool :=
  match c with
  | Str _ => true
  | _ => false
  end.

(** A column is either stored as its cells, or, once retyped with
    [astype('category')], as a table of categories and one code per row
    (code [-1] is a missing value). *)
Inductive column : Type :=
| Plain (xs : list cell)
| Categorical (categories : list cell) (codes : list Z).

Definition decode (categories : list cell) (k : Z) : cell :=
  if k <? 0 then NaN
  else match nth_error categories (Z.to_nat k) with
       | Some c => c
       | None => NaN
       end.

(** The cell values a column displays. *)
Definition values (c : column) : list cell :=
  match c with
  | Plain xs => xs
  | Categorical cats codes => map (decode cats) codes
  end.

Inductive dtype : Type := int64 | object | category.

Definition dtype_of (c : column) : dtype :=
  match c with
  | Plain xs => if forallb is_int xs then int64 else object
  | Categorical _ _ => category
  end.

(** A table: row labels and named columns, in insertion order. *)
Record DataFrame : Type := {
  index : list Z;
  columns : list (string * column)
}.

(** [range(lo, hi)] *)
Definition range (lo hi : Z) : list Z :=
  map (fun k => lo + Z.of_nat k) (seq 0 (Z.to_nat (hi - lo))).

Definition same_length (n : nat) (kv : string * list cell) : bool :=
  Nat.eqb (length (snd kv)) n.

(** [pd.DataFrame(d)] for a dict of sequences: the columns must have one
    length (pandas raises [ValueError] otherwise); rows are labelled
    [0 .. n-1]. *)
Definition new_DataFrame (d : list (string * list cell)) : option DataFrame :=
  match d with
  | [] => Some {| index := []; columns := [] |}
  | (_, xs) :: _ =>
      let n := length xs in
      if forallb (same_length n) d
      then Some {| index := range 0 (Z.of_nat n);
                  columns := map (fun kv => (fst kv, Plain (snd kv))) d |}
      else None
  end.

(** [df.shape] *)
Definition shape (df : DataFrame) : nat * nat :=
  (length (index df), length (columns df)).

(** [df[name]]: a missing column is a [KeyError]. *)
Fixpoint lookup (name : string) (cols : list (string * column)) : option column :=
  match cols with
  | [] => None
  | (k, c) :: rest => if String.eqb k name then Some c else lookup name rest
  end.

Definition getitem (df : DataFrame) (name : string) : option column :=
  lookup name (columns df).

(** [df[name] = c]: replaces the column in place, or appends a new one. *)
Fixpoint assign (name : string) (c : column) (cols : list (string * column))
  : list (string * column) :=
  match cols with
  | [] => [(name, c)]
  | (k, old) :: rest =>
      if String.eqb k name then (k, c) :: rest
      else (k, old) :: assign name c rest
  end.

Definition setitem (df : DataFrame) (name : string) (c : column) : DataFrame :=
  {| index := index df; columns := assign name c (columns df) |}.

(** The rows of a table, each the list of its cells in column order. *)
Definition row_at (cols : list (string * column)) (i : nat) : list cell :=
  map (fun kc => nth i (values (snd kc)) NaN) cols.

Definition rows (df : DataFrame) : list (list cell) :=
  map (row_at (columns df)) (seq 0 (length (index df))).

Definition dtypes (df : DataFrame) : list (string * dtype) :=
  map (fun kc => (fst kc, dtype_of (snd kc))) (columns df).

(** *** Boolean masks *)

(** Elementwise comparison of a column with an int: a missing value
    compares false, a str raises [TypeError]. *)
Definition cmp_scalar (op : Z -> Z -> bool) (k : Z) (c : cell) : option bool :=
  match c with
  | Int z => Some (op z k)
  | NaN => Some false
  | Str _ => None
  end.

Fixpoint traverse {A B : Type} (f : A -> option B) (xs : list A) : option (list B) :=
  match xs with
  | [] => Some []
  | x :: rest =>
      y <- f x ;;
      ys <- traverse f rest ;;
      Some (y :: ys)
  end.

(** [col > k] and [col < k] *)
Definition gt (c : column) (k : Z) : option (list bool) :=
  traverse (cmp_scalar Z.gtb k) (values c).

Definition lt (c : column) (k : Z) : option (list bool) :=
  traverse (cmp_scalar Z.ltb k) (values c).

(** [col == s] for a str [s]: never raises; other cells compare false. *)
Definition eq_str (c : column) (s : string) : list bool :=
  map (fun x => cell_eqb x (Str s)) (values c).

(** [m1 | m2] *)
Definition or_mask (m1 m2 : list bool) : list bool :=
  map (fun p => fst p || snd p) (combine m1 m2).

(** The entries of [xs] at the positions where the mask is true. *)
Fixpoint select {A : Type} (mask : list bool) (xs : list A) : list A :=
  match mask, xs with
  | b :: m, x :: rest => if b then x :: select m rest else select m rest
  | _, _ => []
  end.

Definition select_column (mask : list bool) (c : column) : column :=
  match c with
  | Plain xs => Plain (select mask xs)
  | Categorical cats codes => Categorical cats (select mask codes)
  end.

(** [df[mask]]: the rows where the mask is true, with their labels. *)
Definition getitem_mask (df : DataFrame) (mask : list bool) : DataFrame :=
  {| index := select mask (index df);
     columns := map (fun kc => (fst kc, select_column mask (snd kc))) (columns df) |}.

(** [df.empty] *)
Definition empty (df : DataFrame) : bool :=
  match index df, columns df with
  | [], _ => true
  | _, [] => true
  | _, _ => false
  end.

(** [df.head()]: the first five rows. *)
Definition head (df : DataFrame) : DataFrame :=
  getitem_mask df (repeat true 5).

(** *** Missing values and duplicates *)

Definition count_true (bs : list bool) : Z :=
  Z.of_nat (List.length (filter (fun b => b) bs)).

(** [df.isnull().sum()]: for each column, the number of missing cells. *)
Definition isnull_sum (df : DataFrame) : list (string * Z) :=
  map (fun kc => (fst kc, count_true (map isnull (values (snd kc))))) (columns df).

Fixpoint row_eqb (r1 r2 : list cell) : bool :=
  match r1, r2 with
  | [], [] => true
  | a :: r1', b :: r2' => cell_eqb a b && row_eqb r1' r2'
  | _, _ => false
  end.

(** [df.duplicated()]: a row is marked when an earlier row has the same
    cells in every column. *)
Fixpoint duplicated_from (seen rs : list (list cell)) : list bool :=
  match rs with
  | [] => []
  | r :: rest => existsb (row_eqb r) seen :: duplicated_from (r :: seen) rest
  end.

Definition duplicated (df : DataFrame) : list bool :=
  duplicated_from [] (rows df).

(** *** Sorting *)

Section Sort.
Context {A : Type} (leb : A -> A -> bool).

Fixpoint insert (x : A) (l : list A) : list A :=
  match l with
  | [] => [x]
  | h :: t => if leb x h then x :: l else h :: insert x t
  end.

(** A stable insertion sort: entries that compare equal keep their order. *)
Definition isort (l : list A) : list A := fold_right insert [] l.
End Sort.

(** *** Categorical columns *)

(** The distinct cells of a list, in order of first appearance. *)
Fixpoint dedup (xs : list cell) : list cell :=
  match xs with
  | [] => []
  | x :: rest => x :: filter (fun y => negb (cell_eqb y x)) (dedup rest)
  end.

Definition notnull (c : cell) : bool := negb (isnull c).

Definition cell_leb (a b : cell) : bool :=
  match a, b with
  | Int x, Int y => x <=? y
  | Str s, Str t => String.leb s t
  | _, _ => true
  end.

(** The categories of a column: its distinct non-missing cells, sorted when
    they can be compared (all str, by code point; or all int), and in order
    of first appearance otherwise. *)
Definition categories_of (xs : list cell) : list cell :=
  let u := dedup (filter notnull xs) in
  if forallb is_str u || forallb is_int u then isort cell_leb u else u.

(** The position of a cell in the categories, or [-1]. *)
Fixpoint index_of (c : cell) (cats : list cell) (k : Z) : Z :=
  match cats with
  | [] => -1
  | h :: t => if cell_eqb h c then k else index_of c t (k + 1)
  end.

Definition encode (cats : list cell) (c : cell) : Z := index_of c cats 0.

(** [col.astype('category')] *)
Definition astype_category (c : column) : column :=
  match c with
  | Categorical _ _ => c
  | Plain xs =>
      let cats := categories_of xs in
      Categorical cats (map (encode cats) xs)
  end.

(** *** float64 arithmetic *)

(** A Python int as a float64; exact below [2^53]. *)
Definition Z2F (z : Z) : float :=
  if z <? 0 then PrimFloat.opp (PrimFloat.of_uint63 (Uint63.of_Z (- z)))
  else PrimFloat.of_uint63 (Uint63.of_Z z).

Definition two52 : float := Z2F (2 ^ 52).

(** [rint]: round to the nearest integer, ties to even, for [|x| < 2^52],
    by the usual add-and-subtract of [2^52]. *)
Definition rint (x : float) : float :=
  if PrimFloat.ltb x PrimFloat.zero
  then PrimFloat.add (PrimFloat.sub x two52) two52
  else PrimFloat.sub (PrimFloat.add x two52) two52.

(** [x.round(2)] on a float64: scale by 100, [rint], scale back. *)
Definition round2 (x : float) : float :=
  PrimFloat.div (rint (PrimFloat.mul x (Z2F 100))) (Z2F 100).

(** An int64 result wraps around. *)
Definition wrap64 (z : Z) : Z := (z + 2 ^ 63) mod 2 ^ 64 - 2 ^ 63.

Definition int_of (c : cell) : option (list Z) :=
  match c with
  | Int z => Some [z]
  | NaN => Some []
  | Str _ => None
  end.

(** The ints of a list of cells, missing values skipped; a str is a
    [TypeError]. *)
Definition ints_of (xs : list cell) : option (list Z) :=
  zs <- traverse int_of xs ;; Some (concat zs).

Definition Zsum (zs : list Z) : Z := fold_left Z.add zs 0.

(** *** Grouping and counting *)

(** The keys [groupby] reports: every category of a categorical column,
    in category order; the sorted distinct values of any other column. *)
Definition group_keys (key : column) : list cell :=
  match key with
  | Categorical cats _ => cats
  | Plain xs => categories_of xs
  end.

(** The positions of the rows whose key cell is [k]. *)
Definition group_rows (key : column) (k : cell) : list nat :=
  filter (fun i => cell_eqb (nth i (values key) NaN) k)
         (seq 0 (List.length (values key))).

(** [df.groupby(key)]: each key with the positions of its rows. *)
Definition groupby (key : column) : list (cell * list nat) :=
  map (fun k => (k, group_rows key k)) (group_keys key).

Record agg : Type := {
  agg_count : Z;
  agg_sum : Z;
  agg_mean : float
}.

(** ['count'], ['sum'] and ['mean'] of the cells of one group: the count
    is that of the non-missing cells, the sum is an int64, the mean a
    float64 (the quotient of two ints below [2^53] here, where the float
    sum is exact). *)
Definition aggregate (cells : list cell) : option agg :=
  zs <- ints_of cells ;;
  let n := Z.of_nat (List.length zs) in
  Some {| agg_count := n;
          agg_sum := wrap64 (Zsum zs);
          agg_mean := PrimFloat.div (Z2F (Zsum zs)) (Z2F n) |}.

(** [.round(2)] of a summary row: the int columns are unchanged. *)
Definition round_agg (a : agg) : agg :=
  {| agg_count := agg_count a;
     agg_sum := agg_sum a;
     agg_mean := round2 (agg_mean a) |}.

Definition agg_group (val : column) (g : cell * list nat) : option (cell * agg) :=
  a <- aggregate (map (fun i => nth i (values val) NaN) (snd g)) ;;
  Some (fst g, a).

(** [df.groupby(key)[val].agg(['count', 'sum', 'mean'])] *)
Definition groupby_agg (key val : column) : option (list (cell * agg)) :=
  traverse (agg_group val) (groupby key).

Definition count_cell (k : cell) (xs : list cell) : Z :=
  count_true (map (cell_eqb k) xs).

Definition by_count_desc (a b : cell * Z) : bool := snd b <=? snd a.

(** The values a column is counted by: the categories of a categorical
    column, the distinct non-missing cells of any other. *)
Definition counted_keys (c : column) : list cell :=
  match c with
  | Categorical cats _ => cats
  | Plain xs => dedup (filter notnull xs)
  end.

(** [col.value_counts()]: the number of rows per value, in descending
    order of count. *)
Definition value_counts (c : column) : list (cell * Z) :=
  isort by_count_desc
        (map (fun k => (k, count_cell k (values c))) (counted_keys c)).

(** *** Descriptive statistics *)

Record description : Type := {
  d_count : float;
  d_mean : float;
  d_std : float;
  d_min : float;
  d_q25 : float;
  d_q50 : float;
  d_q75 : float;
  d_max : float
}.

Definition Fsum (xs : list float) : float :=
  fold_left PrimFloat.add xs PrimFloat.zero.

(** The quantile [num/4] of sorted values, by linear interpolation
    between the two entries around position [num/4 * (n-1)]. *)
Definition quantile4 (sorted : list Z) (num : Z) : float :=
  let pos := num * (Z.of_nat (List.length sorted) - 1) in
  let lo := Z.to_nat (pos / 4) in
  let a := nth lo sorted 0 in
  let b := nth (S lo) sorted a in
  PrimFloat.add (Z2F a)
    (PrimFloat.mul (Z2F (b - a)) (PrimFloat.div (Z2F (pos mod 4)) (Z2F 4))).

(** [col.describe()] of a numeric column; the standard deviation is the
    sample one (divisor [n-1]). *)
Definition describe (c : column) : option description :=
  zs <- ints_of (values c) ;;
  let n := Z.of_nat (List.length zs) in
  let m := PrimFloat.div (Z2F (Zsum zs)) (Z2F n) in
  let dev z := PrimFloat.sub (Z2F z) m in
  let sq := Fsum (map (fun z => PrimFloat.mul (dev z) (dev z)) zs) in
  let sorted := isort Z.leb zs in
  Some {| d_count := Z2F n;
          d_mean := m;
          d_std := PrimFloat.sqrt (PrimFloat.div sq (Z2F (n - 1)));
          d_min := Z2F (nth 0 sorted 0);
          d_q25 := quantile4 sorted 1;
          d_q50 := quantile4 sorted 2;
          d_q75 := quantile4 sorted 3;
          d_max := Z2F (last sorted 0) |}.

(** [df.info()]: per column, the number of non-missing cells and the dtype. *)
Definition info (df : DataFrame) : list (string * Z * dtype) :=
  map (fun kc => (fst kc,
                  count_true (map notnull (values (snd kc))),
                  dtype_of (snd kc)))
      (columns df).

End Pandas.

(** ** The script *)

Module Script.
Import Pandas.

(** The literal dict of line 17: six parallel sequences. *)
Definition data : list (string * list cell) :=
  [ ("交易ID", map Int (range 1001 1021));
    ("客户ID", map Str
       ["C1001"; "C1002"; "C1001"; "C1003"; "C1004"; "C1002"; "C1005"; "C1003"; "C1006"; "C1007";
        "C1008"; "C1004"; "C1009"; "C1010"; "C1005"; "C1001"; "C1006"; "C1011"; "C1002"; "C1003"]);
    ("交易类型", map Str
       ["存款"; "取款"; "转账"; "存款"; "取款"; "转账"; "存款"; "取款"; "存款"; "转账";
        "取款"; "存款"; "转账"; "存款"; "取款"; "转账"; "存款"; "取款"; "存款"; "转账"]);
    ("交易金额", map Int
       [5000; -2000; -1500; 8000; -500; -3000; 12000; -2200; 6000; -4000;
        -1000; 7000; -2500; 9000; -1200; -3500; 4500; -800; 3000; -1500]);
    ("交易渠道", map Str
       ["网银"; "ATM"; "手机银行"; "柜台"; "ATM"; "网银"; "手机银行"; "柜台"; "网银"; "手机银行";
        "ATM"; "柜台"; "网银"; "手机银行"; "ATM"; "手机银行"; "柜台"; "ATM"; "网银"; "柜台"]);
    ("交易状态", map Str
       ["成功"; "成功"; "成功"; "成功"; "失败"; "成功"; "成功"; "成功"; "成功"; "成功";
        "成功"; "成功"; "成功"; "成功"; "成功"; "成功"; "成功"; "成功"; "成功"; "成功"]) ].

(** What a [print] call writes: text, or the value it was given.  The
    blank line that starts some messages is left out. *)
Inductive printed : Type :=
| Text (s : string)
| Formatted (s : string) (z : Z)
| Frame (d : DataFrame)
| Info (i : list (string * Z * dtype))
| Nulls (n : list (string * Z))
| Dtypes (t : list (string * dtype))
| Description (d : description)
| Summary (t : list (cell * agg))
| Counts (c : list (cell * Z)).

(** The script runs its four numbered steps in order. *)
Inductive stage : Type := Generate | Clean | Analyze | Visualize | Finished.

(** The state of a run: the step it is at, the module's global names
    ([None] while a name is unbound) and what has been printed. *)
Record state : Type := {
  pc : stage;
  df : option DataFrame;
  duplicate_rows : option Z;
  abnormal : option DataFrame;
  type_summary : option (list (cell * agg));
  channel_count : option (list (cell * Z));
  failed_transactions : option DataFrame;
  figure : option (list (cell * Z) * list (cell * Z));
  stdout : list printed
}.

Definition goto (p : stage) (s : state) : state :=
  {| pc := p; df := df s; duplicate_rows := duplicate_rows s;
     abnormal := abnormal s; type_summary := type_summary s;
     channel_count := channel_count s;
     failed_transactions := failed_transactions s;
     figure := figure s; stdout := stdout s |}.

Definition set_df (d : DataFrame) (s : state) : state :=
  {| pc := pc s; df := Some d; duplicate_rows := duplicate_rows s;
     abnormal := abnormal s; type_summary := type_summary s;
     channel_count := channel_count s;
     failed_transactions := failed_transactions s;
     figure := figure s; stdout := stdout s |}.

Definition set_duplicate_rows (n : Z) (s : state) : state :=
  {| pc := pc s; df := df s; duplicate_rows := Some n;
     abnormal := abnormal s; type_summary := type_summary s;
     channel_count := channel_count s;
     failed_transactions := failed_transactions s;
     figure := figure s; stdout := stdout s |}.

Definition set_abnormal (d : DataFrame) (s : state) : state :=
  {| pc := pc s; df := df s; duplicate_rows := duplicate_rows s;
     abnormal := Some d; type_summary := type_summary s;
     channel_count := channel_count s;
     failed_transactions := failed_transactions s;
     figure := figure s; stdout := stdout s |}.

Definition set_type_summary (t : list (cell * agg)) (s : state) : state :=
  {| pc := pc s; df := df s; duplicate_rows := duplicate_rows s;
     abnormal := abnormal s; type_summary := Some t;
     channel_count := channel_count s;
     failed_transactions := failed_transactions s;
     figure := figure s; stdout := stdout s |}.

Definition set_channel_count (c : list (cell * Z)) (s : state) : state :=
  {| pc := pc s; df := df s; duplicate_rows := duplicate_rows s;
     abnormal := abnormal s; type_summary := type_summary s;
     channel_count := Some c;
     failed_transactions := failed_transactions s;
     figure := figure s; stdout := stdout s |}.

Definition set_failed_transactions (d : DataFrame) (s : state) : state :=
  {| pc := pc s; df := df s; duplicate_rows := duplicate_rows s;
     abnormal := abnormal s; type_summary := type_summary s;
     channel_count := channel_count s;
     failed_transactions := Some d;
     figure := figure s; stdout := stdout s |}.

Definition set_figure (f : list (cell * Z) * list (cell * Z)) (s : state) : state :=
  {| pc := pc s; df := df s; duplicate_rows := duplicate_rows s;
     abnormal := abnormal s; type_summary := type_summary s;
     channel_count := channel_count s;
     failed_transactions := failed_transactions s;
     figure := Some f; stdout := stdout s |}.

(** [print(p)] *)
Definition print (p : printed) (s : state) : state :=
  {| pc := pc s; df := df s; duplicate_rows := duplicate_rows s;
     abnormal := abnormal s; type_summary := type_summary s;
     channel_count := channel_count s;
     failed_transactions := failed_transactions s;
     figure := figure s; stdout := stdout s ++ [p] |}.

(** *** Step 1: the table (lines 15-36) *)

Definition step1 (s : state) : option state :=
  let s := print (Text "=== 第1步：生成模拟银行交易数据 ===") s in
  d <- new_DataFrame data ;;
  let s := set_df d s in
  let s := print (Text "原始数据预览：") s in
  let s := print (Frame (head d)) s in
  let s := print (Text "数据基本信息：") s in
  let s := print (Info (info d)) s in
  let s := print (Text "None") s in
  Some (goto Clean s).

(** *** Step 2: cleaning (lines 38-63) *)

(** 2.1: missing values per column. *)
Definition check_missing (s : state) : option state :=
  let s := print (Text "检查缺失值：") s in
  d <- df s ;;
  Some (print (Nulls (isnull_sum d)) s).

(** 2.2: the number of duplicated rows. *)
Definition check_duplicates (s : state) : option state :=
  d <- df s ;;
  let n := count_true (duplicated d) in
  let s := set_duplicate_rows n s in
  Some (print (Formatted "发现重复行数：" n) s).

Definition no_outlier_message : string := "未发现定义的异常值。".

(** 2.3: the rows whose amount is above 10000 or below -5000 are
    printed; nothing is changed. *)
Definition check_outliers (s : state) : option state :=
  let s := print (Text "检查交易金额异常值（>10000或<-5000）：") s in
  d <- df s ;;
  amount <- getitem d "交易金额" ;;
  high <- gt amount 10000 ;;
  amount' <- getitem d "交易金额" ;;
  low <- lt amount' (-5000) ;;
  let found := getitem_mask d (or_mask high low) in
  let s := set_abnormal found s in
  if negb (empty found)
  then Some (print (Frame found) s)
  else Some (print (Text no_outlier_message) s).

(** 2.4: the two label columns become categorical. *)
Definition retype (s : state) : option state :=
  d <- df s ;;
  kind <- getitem d "交易类型" ;;
  let d := setitem d "交易类型" (astype_category kind) in
  channel <- getitem d "交易渠道" ;;
  let d := setitem d "交易渠道" (astype_category channel) in
  let s := set_df d s in
  let s := print (Text "清洗后数据类型：") s in
  Some (print (Dtypes (dtypes d)) s).

Definition step2 (s : state) : option state :=
  let s := print (Text "=== 第2步：数据清洗 ===") s in
  s <- check_missing s ;;
  s <- check_duplicates s ;;
  s <- check_outliers s ;;
  s <- retype s ;;
  Some (goto Analyze s).

(** *** Step 3: analysis (lines 65-83) *)

(** 3.1 *)
Definition describe_amount (s : state) : option state :=
  let s := print (Text "交易金额统计描述（元）：") s in
  d <- df s ;;
  amount <- getitem d "交易金额" ;;
  stats <- describe amount ;;
  Some (print (Description stats) s).

(** 3.2 *)
Definition summarize_types (s : state) : option state :=
  let s := print (Text "按【交易类型】统计（笔数、总额、平均额）：") s in
  d <- df s ;;
  kind <- getitem d "交易类型" ;;
  amount <- getitem d "交易金额" ;;
  t <- groupby_agg kind amount ;;
  let t := map (fun ka => (fst ka, round_agg (snd ka))) t in
  let s := set_type_summary t s in
  Some (print (Summary t) s).

(** 3.3 *)
Definition count_channels (s : state) : option state :=
  let s := print (Text "按【交易渠道】统计交易笔数：") s in
  d <- df s ;;
  channel <- getitem d "交易渠道" ;;
  let c := value_counts channel in
  let s := set_channel_count c s in
  Some (print (Counts c) s).

(** 3.4 *)
Definition find_failed (s : state) : option state :=
  let s := print (Text "失败的交易：") s in
  d <- df s ;;
  status <- getitem d "交易状态" ;;
  let failed := getitem_mask d (eq_str status "失败") in
  let s := set_failed_transactions failed s in
  Some (print (Frame failed) s).

Definition step3 (s : state) : option state :=
  let s := print (Text "=== 第3步：基础数据分析 ===") s in
  s <- describe_amount s ;;
  s <- summarize_types s ;;
  s <- count_channels s ;;
  s <- find_failed s ;;
  Some (goto Visualize s).

(** *** Step 4: the two bar charts (lines 85-108); only the bars drawn are
    kept, not their rendering. *)

Definition step4 (s : state) : option state :=
  let s := print (Text "=== 第4步：数据可视化 ===") s in
  t <- type_summary s ;;
  c <- channel_count s ;;
  let s := set_figure (map (fun ka => (fst ka, agg_sum (snd ka))) t, c) s in
  let s := print (Text "图表已保存为 ‘bank_transaction_analysis.png‘") s in
  let s := print (Text "=== 项目完成！ ===") s in
  let s := print (Text "已成功完成：1. 数据生成 2. 数据清洗 3. 业务分析 4. 结果可视化") s in
  Some (goto Finished s).

(** *** Running the script *)

Definition exec (s : state) : option state :=
  match pc s with
  | Generate => step1 s
  | Clean => step2 s
  | Analyze => step3 s
  | Visualize => step4 s
  | Finished => None
  end.

Inductive step : state -> state -> Prop :=
| step_exec (s s' : state) : exec s = Some s' -> step s s'.

(** A run is any number of steps. *)
Inductive run : state -> state -> Prop :=
| run_done (s : state) : run s s
| run_step (s s' s'' : state) : step s s' -> run s' s'' -> run s s''.

(** A fresh interpreter: nothing bound, nothing printed. *)
Definition init : state :=
  {| pc := Generate; df := None; duplicate_rows := None; abnormal := None;
     type_summary := None; channel_count := None;
     failed_transactions := None; figure := None; stdout := [] |}.

(** The script from start to end, as a function. *)
Definition main (s : state) : option state :=
  s <- step1 s ;; s <- step2 s ;; s <- step3 s ;; step4 s.

End Script.

(** * Vocabulary of the statements *)

Import Pandas Script.

Definition cell_eq_dec (a b : cell) : {a = b} + {a <> b}.
Proof.
  decide equality; [apply Z.eq_dec | apply string_dec].
Defined.

(** The rule in words: an amount is flagged when it is above 10000 or
    below -5000. *)
Definition flagged (amount : Z) : bool := (amount >? 10000) || (amount <? -5000).

Definition flagged_cell (c : cell) : bool :=
  match c with
  | Int z => flagged z
  | _ => false
  end.

Definition deposit : string := "存款".
Definition withdrawal : string := "取款".
Definition transfer : string := "转账".

(** The amount in row [i] of a column is an int satisfying [P]. *)
Definition amount_at (amount : column) (P : Z -> Prop) (i : nat) : Prop :=
  exists a, nth_error (values amount) i = Some (Int a) /\ P a.

(** [prepend l s] is [s] run after [l] had been printed.  No statement of
    the script reads what was printed: each commutes with [prepend]. *)
Definition prepend (l : list printed) (s : state) : state :=
  {| pc := pc s; df := df s; duplicate_rows := duplicate_rows s;
     abnormal := abnormal s; type_summary := type_summary s;
     channel_count := channel_count s;
     failed_transactions := failed_transactions s;
     figure := figure s; stdout := l ++ stdout s |}.

Definition framed (f : state -> option state) : Prop :=
  forall (l : list printed) (s : state),
    f (prepend l s) = option_map (prepend l) (f s).

(** An interpreter that has been used before: names are bound to old
    values and something is on the screen. *)
Definition used_interpreter : state :=
  {| pc := Generate;
     df := Some {| index := [0]; columns := [("交易金额", Plain [Int 1])] |};
     duplicate_rows := Some 7;
     abnormal := None;
     type_summary := Some [];
     channel_count := None;
     failed_transactions := None;
     figure := None;
     stdout := [Text "earlier output"] |}.

(** A table is well formed when every column has one cell per row label;
    [pd.DataFrame] builds such tables and the script keeps them so. *)
Definition well_formed (t : DataFrame) : Prop :=
  Forall (fun kc => List.length (values (snd kc)) = List.length (index t))
         (columns t).

(** The cells of the columns, without their names. *)
Definition cells_of (cols : list (string * column)) : list (list cell) :=
  map (fun kc => values (snd kc)) cols.

(** Row [i] of a list of columns, and the first [n] rows. *)
Definition cross (vs : list (list cell)) (i : nat) : list cell :=
  map (fun v => nth i v NaN) vs.

Definition transpose (n : nat) (vs : list (list cell)) : list (list cell) :=
  map (cross vs) (seq 0 n).

(** The ints among some cells, in order. *)
Definition ints (xs : list cell) : list Z :=
  flat_map (fun c => match c with Int z => [z] | _ => [] end) xs.

(** The script's label for a failed transaction. *)
Definition failure : string := "失败".

(** * Properties *)

(** ** Facts about the pandas operations *)

Lemma cell_eqb_eq (a b : cell) : cell_eqb a b = true <-> a = b.
Proof.
  destruct a as [x|s|], b as [y|t|]; simpl; split; intro H;
    try discriminate; try reflexivity.
  - apply Z.eqb_eq in H. now subst.
  - injection H as ->. apply Z.eqb_refl.
  - apply String.eqb_eq in H. now subst.
  - injection H as ->. apply String.eqb_refl.
Qed.

Lemma cell_eqb_refl (a : cell) : cell_eqb a a = true.
Proof. now apply cell_eqb_eq. Qed.

Lemma row_eqb_eq (r1 r2 : list cell) : row_eqb r1 r2 = true <-> r1 = r2.
Proof.
  revert r2. induction r1 as [|a r1 IH]; intros [|b r2]; simpl;
    try (split; [discriminate | discriminate]); try tauto.
  rewrite andb_true_iff, cell_eqb_eq, IH.
  split.
  - intros [-> ->]. reflexivity.
  - intros H. injection H as -> ->. auto.
Qed.

Section SortFacts.
Context {A : Type} (leb : A -> A -> bool).

Lemma insert_perm (x : A) (l : list A) : Permutation (x :: l) (insert leb x l).
Proof.
  induction l as [|h t IH]; simpl.
  - apply Permutation_refl.
  - destruct (leb x h).
    + apply Permutation_refl.
    + eapply perm_trans; [apply perm_swap|].
      now apply perm_skip.
Qed.

Lemma isort_perm (l : list A) : Permutation l (isort leb l).
Proof.
  induction l as [|x l IH]; simpl.
  - constructor.
  - eapply perm_trans; [|apply insert_perm].
    now apply perm_skip.
Qed.

Lemma isort_In (x : A) (l : list A) : In x (isort leb l) <-> In x l.
Proof.
  split; apply Permutation_in.
  - apply Permutation_sym, isort_perm.
  - apply isort_perm.
Qed.

(** Sortedness needs only that [leb] is total. *)
Hypothesis leb_total : forall a b, leb a b = true \/ leb b a = true.

Let le (a b : A) : Prop := leb a b = true.

Lemma insert_sorted (x : A) (l : list A) :
  Sorted le l -> Sorted le (insert leb x l).
Proof.
  induction 1 as [|h t Hs IH Hh]; simpl.
  - repeat constructor.
  - destruct (leb x h) eqn:E.
    + constructor; [now constructor|]. now constructor.
    + constructor; [exact IH|].
      assert (Hhx : le h x) by (destruct (leb_total x h); [congruence|assumption]).
      destruct Hh as [|b t' Hb]; simpl.
      * now constructor.
      * destruct (leb x b); now constructor.
Qed.

Lemma isort_sorted (l : list A) : Sorted le (isort leb l).
Proof.
  induction l as [|x l IH]; simpl.
  - constructor.
  - now apply insert_sorted.
Qed.
End SortFacts.

(** *** Retyping a column keeps its cells *)

Lemma dedup_In (x : cell) (l : list cell) : In x (dedup l) <-> In x l.
Proof.
  induction l as [|h t IH]; simpl; [tauto|].
  rewrite filter_In, IH, negb_true_iff.
  split.
  - intros [H|[H _]]; auto.
  - intros [H|H]; auto.
    destruct (cell_eqb x h) eqn:E.
    + apply cell_eqb_eq in E. auto.
    + auto.
Qed.

Lemma categories_of_In (x : cell) (xs : list cell) :
  In x (categories_of xs) <-> In x xs /\ notnull x = true.
Proof.
  unfold categories_of.
  destruct (forallb is_str _ || forallb is_int _);
    [rewrite isort_In|]; rewrite dedup_In, filter_In; tauto.
Qed.

Lemma index_of_found (x : cell) (cats : list cell) (k : Z) :
  In x cats ->
  k <= index_of x cats k /\
  nth_error cats (Z.to_nat (index_of x cats k - k)) = Some x.
Proof.
  revert k. induction cats as [|h t IH]; intros k Hin; [destruct Hin|].
  simpl. destruct (cell_eqb h x) eqn:E.
  - apply cell_eqb_eq in E. subst h.
    split; [lia|]. now replace (k - k) with 0 by lia.
  - assert (Ht : In x t).
    { destruct Hin as [->|H]; [|exact H]. now rewrite cell_eqb_refl in E. }
    destruct (IH (k + 1) Ht) as [Hle Hnth].
    split; [lia|].
    replace (Z.to_nat (index_of x t (k + 1) - k))
      with (S (Z.to_nat (index_of x t (k + 1) - (k + 1)))) by lia.
    exact Hnth.
Qed.

Lemma index_of_absent (x : cell) (cats : list cell) (k : Z) :
  ~ In x cats -> index_of x cats k = -1.
Proof.
  revert k. induction cats as [|h t IH]; intros k Hn; simpl; [reflexivity|].
  destruct (cell_eqb h x) eqn:E.
  - apply cell_eqb_eq in E. subst h. exfalso. apply Hn. now left.
  - apply IH. intro H. apply Hn. now right.
Qed.

Lemma decode_encode (xs : list cell) (x : cell) :
  In x xs -> decode (categories_of xs) (encode (categories_of xs) x) = x.
Proof.
  intros Hin. unfold decode, encode.
  destruct (isnull x) eqn:Hx.
  - rewrite index_of_absent.
    + destruct x; try discriminate. reflexivity.
    + rewrite categories_of_In. unfold notnull. rewrite Hx.
      intros [_ H]. discriminate.
  - assert (Hc : In x (categories_of xs)).
    { apply categories_of_In. unfold notnull. now rewrite Hx. }
    destruct (index_of_found x _ 0 Hc) as [Hle Hnth].
    rewrite Z.sub_0_r in Hnth.
    destruct (index_of x (categories_of xs) 0 <? 0) eqn:E; [lia|].
    now rewrite Hnth.
Qed.

(** [astype('category')] changes how a column is stored, never the cells
    it shows. *)
Lemma astype_category_values (c : column) :
  values (astype_category c) = values c.
Proof.
  destruct c as [xs|cats codes]; [|reflexivity].
  simpl. rewrite map_map.
  transitivity (map (fun x => x) xs); [|apply map_id].
  apply map_ext_in. intros x Hx. now apply decode_encode.
Qed.

(** Assigning to an existing column cells equal to the old ones leaves the
    names and the cells of the table as they were. *)
Lemma assign_same_values (name : string) (c old : column) (cols : list (string * column)) :
  lookup name cols = Some old ->
  values c = values old ->
  map fst (assign name c cols) = map fst cols /\
  map (fun kc => values (snd kc)) (assign name c cols) =
  map (fun kc => values (snd kc)) cols.
Proof.
  induction cols as [|[k c0] rest IH]; simpl; [discriminate|].
  intros Hl Hv. destruct (String.eqb k name) eqn:E.
  - injection Hl as ->. simpl. now rewrite Hv.
  - destruct (IH Hl Hv) as [H1 H2]. simpl. now rewrite H1, H2.
Qed.

Lemma row_at_values (cols cols' : list (string * column)) (i : nat) :
  map (fun kc => values (snd kc)) cols = map (fun kc => values (snd kc)) cols' ->
  row_at cols i = row_at cols' i.
Proof.
  unfold row_at. intros H.
  rewrite <- (map_map (fun kc => values (snd kc)) (fun v => nth i v NaN) cols).
  rewrite <- (map_map (fun kc => values (snd kc)) (fun v => nth i v NaN) cols').
  now rewrite H.
Qed.

Lemma setitem_same_values (d : DataFrame) (name : string) (c old : column) :
  getitem d name = Some old ->
  values c = values old ->
  index (setitem d name c) = index d /\
  map fst (columns (setitem d name c)) = map fst (columns d) /\
  rows (setitem d name c) = rows d.
Proof.
  intros Hl Hv.
  destruct (assign_same_values name c old (columns d) Hl Hv) as [H1 H2].
  split; [reflexivity|]. split; [exact H1|].
  unfold rows. simpl. apply map_ext. intros i.
  now apply row_at_values.
Qed.

Lemma lookup_assign_same (name : string) (c : column) (cols : list (string * column)) :
  lookup name (assign name c cols) = Some c.
Proof.
  induction cols as [|[k c0] rest IH]; simpl.
  - now rewrite String.eqb_refl.
  - destruct (String.eqb k name) eqn:E; simpl; now rewrite E.
Qed.

Lemma lookup_assign_other (name k : string) (c : column) (cols : list (string * column)) :
  k <> name -> lookup k (assign name c cols) = lookup k cols.
Proof.
  intros Hk. induction cols as [|[k0 c0] rest IH]; simpl.
  - destruct (String.eqb name k) eqn:E; [|reflexivity].
    apply String.eqb_eq in E. congruence.
  - destruct (String.eqb k0 name) eqn:E; simpl.
    + apply String.eqb_eq in E. subst k0.
      destruct (String.eqb name k) eqn:E'; [|reflexivity].
      apply String.eqb_eq in E'. congruence.
    + now rewrite IH.
Qed.

(** ** The steps of the script *)

(** Splits a hypothesis [x <- m ;; k = Some r] into the two successes. *)
Ltac bind_inv H :=
  match type of H with
  | bind ?m _ = Some _ =>
      let E := fresh "E" in
      destruct m eqn:E; simpl in H, E; [|discriminate H]
  end.

Lemma check_missing_df (s s' : state) :
  check_missing s = Some s' ->
  df s' = df s /\ exists d, df s = Some d /\
    stdout s' = stdout s ++ [Text "检查缺失值："; Nulls (isnull_sum d)].
Proof.
  unfold check_missing. intros H. simpl in H. bind_inv H.
  injection H as <-. simpl. split; [exact E|].
  eexists. split; [reflexivity|]. now rewrite <- app_assoc.
Qed.

Lemma check_duplicates_df (s s' : state) :
  check_duplicates s = Some s' ->
  df s' = df s /\ exists d, df s = Some d /\
    duplicate_rows s' = Some (count_true (duplicated d)).
Proof.
  unfold check_duplicates. intros H. bind_inv H.
  injection H as <-. simpl. split; [exact E|].
  eexists. split; reflexivity.
Qed.

(** The outlier check binds [abnormal], prints it or the fixed message,
    and leaves the table alone. *)
Lemma check_outliers_df (s s' : state) :
  check_outliers s = Some s' ->
  df s' = df s /\
  exists found, abnormal s' = Some found /\
    stdout s' = stdout s ++
      [Text "检查交易金额异常值（>10000或<-5000）：";
       if empty found then Text no_outlier_message else Frame found].
Proof.
  unfold check_outliers. intros H. simpl in H.
  repeat bind_inv H.
  match type of H with
  | (if negb (empty ?f) then _ else _) = _ => destruct (empty f) eqn:Ee
  end; simpl in H; injection H as <-; simpl;
    (split; [exact E|]); eexists; (split; [reflexivity|]);
    rewrite Ee, <- app_assoc; reflexivity.
Qed.

Lemma retype_df (s s' : state) (d : DataFrame) :
  df s = Some d ->
  retype s = Some s' ->
  exists kind channel,
    getitem d "交易类型" = Some kind /\
    getitem (setitem d "交易类型" (astype_category kind)) "交易渠道" = Some channel /\
    df s' = Some (setitem (setitem d "交易类型" (astype_category kind))
                          "交易渠道" (astype_category channel)).
Proof.
  unfold retype. intros Hd H. rewrite Hd in H. simpl in H.
  bind_inv H. bind_inv H. injection H as <-.
  eexists. eexists. split; [reflexivity|]. split; [exact E0|]. reflexivity.
Qed.

(** ** The table *)

(** C3: from any state, step 1 binds [df] to a table of exactly 20 rows
    and exactly 6 columns, each column of 20 cells, and the column
    [交易ID] holds the integers 1001, 1002, ..., 1020 in this order. *)
Theorem generated_table_shape (s0 : state) :
  exists s d ids,
    step1 s0 = Some s /\
    df s = Some d /\
    shape d = (20%nat, 6%nat) /\
    Forall (fun kc => List.length (values (snd kc)) = 20%nat) (columns d) /\
    getitem d "交易ID" = Some ids /\
    forall k : nat,
      nth_error (values ids) k =
      if (k <? 20)%nat then Some (Int (1001 + Z.of_nat k)) else None.
Proof.
  do 3 eexists.
  split; [reflexivity|].
  split; [reflexivity|].
  split; [reflexivity|].
  split; [repeat constructor|].
  split; [reflexivity|].
  intros k.
  do 20 (destruct k as [|k]; [reflexivity|]).
  simpl values. simpl nth_error.
  destruct k; reflexivity.
Qed.

Lemma astype_category_dtype (c : column) : dtype_of (astype_category c) = category.
Proof. destruct c; reflexivity. Qed.

(** C2: the cleaning step changes no cell.  Whatever table [df] holds,
    when step 2 succeeds [df] has the same row labels, the same column
    names and, row by row, the same cells; the columns other than
    [交易类型] and [交易渠道] are untouched, and these two are now of dtype
    category. *)
Theorem cleaner_keeps_cells (s s' : state) (d : DataFrame) :
  df s = Some d ->
  step2 s = Some s' ->
  exists d',
    df s' = Some d' /\
    index d' = index d /\
    map fst (columns d') = map fst (columns d) /\
    rows d' = rows d /\
    (forall name, name <> "交易类型" -> name <> "交易渠道" ->
                  getitem d' name = getitem d name) /\
    (forall name, name = "交易类型" \/ name = "交易渠道" ->
                  exists c, getitem d' name = Some c /\ dtype_of c = category).
Proof.
  intros Hd H. unfold step2 in H.
  bind_inv H. bind_inv H. bind_inv H. bind_inv H.
  injection H as <-.
  apply check_missing_df in E. destruct E as [E _]. simpl in E.
  apply check_duplicates_df in E0. destruct E0 as [E0 _].
  apply check_outliers_df in E1. destruct E1 as [E1 _].
  assert (Hd2 : df s2 = Some d) by congruence.
  destruct (retype_df _ _ _ Hd2 E2) as (kind & channel & Hk & Hc & Hdf).
  set (d1 := setitem d "交易类型" (astype_category kind)) in *.
  destruct (setitem_same_values d "交易类型" (astype_category kind) kind Hk
              (astype_category_values kind)) as (Hi1 & Hn1 & Hr1).
  destruct (setitem_same_values d1 "交易渠道" (astype_category channel) channel Hc
              (astype_category_values channel)) as (Hi2 & Hn2 & Hr2).
  fold d1 in Hi1, Hn1, Hr1.
  eexists. split; [exact Hdf|].
  split; [congruence|]. split; [congruence|]. split; [congruence|].
  split.
  - intros name H1 H2. unfold getitem. simpl.
    now rewrite !lookup_assign_other.
  - intros name [-> | ->]; eexists; unfold getitem; simpl.
    + rewrite lookup_assign_other by discriminate.
      rewrite lookup_assign_same. split; [reflexivity|].
      apply astype_category_dtype.
    + rewrite lookup_assign_same. split; [reflexivity|].
      apply astype_category_dtype.
Qed.

(** The instance of the script: the table of step 1, cleaned by step 2. *)
Lemma cleaner_keeps_cells_fixed :
  exists s1 d1 s2,
    step1 init = Some s1 /\ df s1 = Some d1 /\ step2 s1 = Some s2 /\
    exists d2,
      df s2 = Some d2 /\
      index d2 = index d1 /\
      map fst (columns d2) = map fst (columns d1) /\
      rows d2 = rows d1 /\
      (forall name, name <> "交易类型" -> name <> "交易渠道" ->
                    getitem d2 name = getitem d1 name) /\
      (forall name, name = "交易类型" \/ name = "交易渠道" ->
                    exists c, getitem d2 name = Some c /\ dtype_of c = category).
Proof.
  let r1 := eval vm_compute in (step1 init) in
  match r1 with
  | Some ?s1 =>
      let rd := eval vm_compute in (df s1) in
      let r2 := eval vm_compute in (step2 s1) in
      match rd with
      | Some ?d1 =>
          match r2 with
          | Some ?s2 =>
              exists s1, d1, s2;
              split; [vm_compute; reflexivity|];
              split; [reflexivity|];
              split; [vm_compute; reflexivity|];
              apply (cleaner_keeps_cells s1 s2 d1);
              [reflexivity | vm_compute; reflexivity]
          end
      end
  end.
Defined.

(** ** Missing values and duplicates *)

Lemma count_true_cons (b : bool) (bs : list bool) :
  count_true (b :: bs) = (if b then 1 else 0) + count_true bs.
Proof.
  unfold count_true. cbn [filter]. destruct b; cbn [List.length]; lia.
Qed.

Lemma count_true_nonneg (bs : list bool) : 0 <= count_true bs.
Proof. unfold count_true. lia. Qed.

(** The count of a column in [isnull().sum()] is the number of its cells
    that are [NaN]. *)
Lemma isnull_count (xs : list cell) :
  count_true (map isnull xs) = Z.of_nat (count_occ cell_eq_dec xs NaN).
Proof.
  induction xs as [|x xs IH]; [reflexivity|].
  change (map isnull (x :: xs)) with (isnull x :: map isnull xs).
  rewrite count_true_cons, IH. cbn [count_occ].
  destruct (cell_eq_dec x NaN) as [->|n].
  - cbn [isnull]. lia.
  - destruct x; cbn [isnull]; try lia. now contradiction n.
Qed.

Lemma check_duplicates_stdout (s s' : state) :
  check_duplicates s = Some s' -> exists out, stdout s' = stdout s ++ out.
Proof.
  unfold check_duplicates. intros H. bind_inv H.
  injection H as <-. simpl. eexists. reflexivity.
Qed.

Lemma retype_stdout (s s' : state) :
  retype s = Some s' -> exists out, stdout s' = stdout s ++ out.
Proof.
  unfold retype. intros H. repeat bind_inv H.
  injection H as <-. simpl. eexists. now rewrite <- app_assoc.
Qed.

(** Step 2 prints the missing-value report of the table it is given. *)
Lemma step2_reports_missing (s s' : state) (d : DataFrame) :
  df s = Some d -> step2 s = Some s' -> In (Nulls (isnull_sum d)) (stdout s').
Proof.
  intros Hd H. unfold step2 in H.
  bind_inv H. bind_inv H. bind_inv H. bind_inv H.
  injection H as <-.
  apply check_missing_df in E. destruct E as (_ & d0 & Hd0 & Ho).
  simpl in Hd0. assert (d0 = d) by congruence. subst d0.
  apply check_duplicates_stdout in E0. destruct E0 as [o0 Ho0].
  apply check_outliers_df in E1. destruct E1 as (_ & found & _ & Ho1).
  apply retype_stdout in E2. destruct E2 as [o2 Ho2].
  cbn [stdout goto]. rewrite Ho2, Ho1, Ho0, Ho.
  rewrite !in_app_iff. cbn [In]. tauto.
Qed.

(** C6: the missing-value check of the script reports zero for each of
    the six columns of the generated table, and step 2 prints this
    report; the report is counted, not assumed: on any table the number
    given for a column is the number of [NaN] cells the column holds, so a
    table with one missing cell is reported with count one. *)
Theorem missing_values_zero :
  (exists s1 d s2,
      step1 init = Some s1 /\ df s1 = Some d /\ step2 s1 = Some s2 /\
      isnull_sum d =
        [("交易ID", 0); ("客户ID", 0); ("交易类型", 0);
         ("交易金额", 0); ("交易渠道", 0); ("交易状态", 0)] /\
      In (Nulls (isnull_sum d)) (stdout s2)) /\
  (forall t : DataFrame,
      isnull_sum t =
      map (fun kc => (fst kc, Z.of_nat (count_occ cell_eq_dec (values (snd kc)) NaN)))
          (columns t)) /\
  isnull_sum {| index := [0; 1]; columns := [("x", Plain [Int 7; NaN])] |} = [("x", 1)].
Proof.
  split; [|split].
  - let r1 := eval vm_compute in (step1 init) in
    match r1 with
    | Some ?s1 =>
        let rd := eval vm_compute in (df s1) in
        let r2 := eval vm_compute in (step2 s1) in
        match rd with
        | Some ?d =>
            match r2 with
            | Some ?s2 =>
                exists s1, d, s2;
                assert (Hd : df s1 = Some d) by reflexivity;
                assert (H2 : step2 s1 = Some s2) by (vm_compute; reflexivity);
                split; [vm_compute; reflexivity|];
                split; [exact Hd|];
                split; [exact H2|];
                split; [vm_compute; reflexivity|];
                exact (step2_reports_missing s1 s2 d Hd H2)
            end
        end
    end.
  - intros t. unfold isnull_sum. apply map_ext. intros kc.
    now rewrite isnull_count.
  - reflexivity.
Qed.

Lemma seen_before (r : list cell) (seen : list (list cell)) :
  existsb (row_eqb r) seen = true <-> In r seen.
Proof.
  rewrite existsb_exists. split.
  - intros (x & Hin & Heq). apply row_eqb_eq in Heq. now subst.
  - intros Hin. exists r. split; [exact Hin|]. now apply row_eqb_eq.
Qed.

Lemma duplicated_from_none (rs seen : list (list cell)) :
  count_true (duplicated_from seen rs) = 0 <->
  NoDup rs /\ (forall r, In r rs -> ~ In r seen).
Proof.
  revert seen. induction rs as [|r rs IH]; intros seen.
  - simpl. split; [|reflexivity]. intros _. split; [constructor|]. intros r [].
  - cbn [duplicated_from]. rewrite count_true_cons.
    pose proof (count_true_nonneg (duplicated_from (r :: seen) rs)) as Hpos.
    pose proof (seen_before r seen) as Hseen.
    specialize (IH (r :: seen)).
    destruct (existsb (row_eqb r) seen).
    + split; [lia|]. intros [_ H]. exfalso.
      apply (H r); [now left | now apply Hseen].
    + split.
      * intros H0. assert (H1 : count_true (duplicated_from (r :: seen) rs) = 0) by lia.
        apply IH in H1. destruct H1 as [Hnd Hfresh].
        split.
        -- constructor; [|exact Hnd]. intros Hin. apply (Hfresh r Hin). now left.
        -- intros r' [<-|Hin] Hs.
           ++ apply Hseen in Hs. discriminate.
           ++ apply (Hfresh r' Hin). now right.
      * intros [Hnd Hfresh]. inversion Hnd as [|? ? Hnotin Hnd']; subst.
        assert (H1 : count_true (duplicated_from (r :: seen) rs) = 0).
        { apply IH. split; [exact Hnd'|]. intros r' Hin [<-|Hs].
          - contradiction.
          - apply (Hfresh r'); [now right | exact Hs]. }
        lia.
Qed.

(** The duplicate count is zero exactly when no two rows are identical. *)
Lemma no_duplicates_iff (t : DataFrame) :
  count_true (duplicated t) = 0 <-> NoDup (rows t).
Proof.
  unfold duplicated. rewrite duplicated_from_none.
  split; [tauto|]. intros H. split; [exact H|]. intros r _ [].
Qed.

Lemma step2_duplicate_rows (s s' : state) (d : DataFrame) :
  df s = Some d -> step2 s = Some s' ->
  duplicate_rows s' = Some (count_true (duplicated d)).
Proof.
  intros Hd H. unfold step2 in H.
  bind_inv H. bind_inv H. bind_inv H. bind_inv H.
  injection H as <-.
  apply check_missing_df in E. destruct E as (Hdf & _). simpl in Hdf.
  apply check_duplicates_df in E0. destruct E0 as (_ & d0 & Hd0 & Hn).
  assert (d0 = d) by congruence. subst d0.
  revert E1 E2 Hn. unfold check_outliers, retype. intros E1 E2 Hn.
  simpl in E1. repeat bind_inv E1.
  match type of E1 with
  | (if ?b then _ else _) = _ => destruct b
  end; injection E1 as <-; simpl in E2; repeat bind_inv E2;
    injection E2 as <-; exact Hn.
Qed.

(** C5: on the generated table the script's duplicate check binds
    [duplicate_rows] to 0, the number of rows of the table that repeat an
    earlier row in all six cells; indeed the twenty rows are pairwise
    different. *)
Theorem duplicate_rows_zero :
  exists s1 d s2,
    step1 init = Some s1 /\ df s1 = Some d /\ step2 s1 = Some s2 /\
    duplicate_rows s2 = Some (count_true (duplicated d)) /\
    duplicate_rows s2 = Some 0 /\
    NoDup (rows d).
Proof.
  let r1 := eval vm_compute in (step1 init) in
  match r1 with
  | Some ?s1 =>
      let rd := eval vm_compute in (df s1) in
      let r2 := eval vm_compute in (step2 s1) in
      match rd with
      | Some ?d =>
          match r2 with
          | Some ?s2 =>
              exists s1, d, s2;
              assert (Hd : df s1 = Some d) by reflexivity;
              assert (H2 : step2 s1 = Some s2) by (vm_compute; reflexivity);
              split; [vm_compute; reflexivity|];
              split; [exact Hd|];
              split; [exact H2|];
              split; [exact (step2_duplicate_rows s1 s2 d Hd H2)|];
              split; [reflexivity|];
              apply no_duplicates_iff; vm_compute; reflexivity
          end
      end
  end.
Qed.

(** ** The outlier check *)

Lemma outlier_mask (xs : list cell) (high low : list bool) :
  traverse (cmp_scalar Z.gtb 10000) xs = Some high ->
  traverse (cmp_scalar Z.ltb (-5000)) xs = Some low ->
  or_mask high low = map flagged_cell xs.
Proof.
  revert high low. induction xs as [|x xs IH]; intros high low Hh Hl.
  - injection Hh as <-. reflexivity.
  - cbn [traverse] in Hh, Hl.
    bind_inv Hh. bind_inv Hh. injection Hh as <-.
    bind_inv Hl. bind_inv Hl. injection Hl as <-.
    unfold or_mask in *. cbn [combine map fst snd].
    rewrite (IH _ _ eq_refl eq_refl).
    destruct x; try discriminate.
    + injection E as <-. injection E1 as <-. reflexivity.
    + injection E as <-. injection E1 as <-. reflexivity.
Qed.

Lemma check_outliers_spec (s s' : state) (d : DataFrame) :
  df s = Some d ->
  check_outliers s = Some s' ->
  exists amount found,
    getitem d "交易金额" = Some amount /\
    found = getitem_mask d (map flagged_cell (values amount)) /\
    abnormal s' = Some found /\
    df s' = Some d /\
    stdout s' = stdout s ++
      [Text "检查交易金额异常值（>10000或<-5000）：";
       if empty found then Text no_outlier_message else Frame found].
Proof.
  intros Hd H.
  destruct (check_outliers_df s s' H) as (Hdf & found & Hab & Hout).
  unfold check_outliers in H. simpl in H. rewrite Hd in H. simpl in H.
  bind_inv H. bind_inv H. bind_inv H.
  assert (Hf : found = getitem_mask d (map flagged_cell (values c))).
  { rewrite <- (outlier_mask (values c) l l0 E0 E1).
    destruct (negb _); injection H as <-; simpl in Hab; congruence. }
  exists c, found.
  split; [reflexivity|]. split; [exact Hf|]. split; [exact Hab|].
  split; [congruence|exact Hout].
Qed.

Lemma retype_abnormal (s s' : state) : retype s = Some s' -> abnormal s' = abnormal s.
Proof.
  unfold retype. intros H. repeat bind_inv H. now injection H as <-.
Qed.

(** Step 2 binds [abnormal] to the rows of its table that the rule flags. *)
Lemma step2_abnormal (s s' : state) (d : DataFrame) :
  df s = Some d -> step2 s = Some s' ->
  exists amount,
    getitem d "交易金额" = Some amount /\
    abnormal s' = Some (getitem_mask d (map flagged_cell (values amount))).
Proof.
  intros Hd H. unfold step2 in H.
  bind_inv H. bind_inv H. bind_inv H. bind_inv H.
  injection H as <-.
  apply check_missing_df in E. destruct E as (Hdf & _). simpl in Hdf.
  apply check_duplicates_df in E0. destruct E0 as (Hdf0 & _).
  assert (Hd1 : df s1 = Some d) by congruence.
  destruct (check_outliers_spec s1 s2 d Hd1 E1) as (amount & found & Ha & -> & Hab & _).
  apply retype_abnormal in E2.
  exists amount. split; [exact Ha|]. cbn [abnormal goto]. congruence.
Qed.

(** C1, as the code has it: on the generated table the outlier filter
    keeps exactly one row, the one labelled 6 (transaction 1007, amount
    12000); the row with amount -3500 is not flagged, -3500 being neither
    above 10000 nor below -5000.  On any table the check binds [abnormal]
    to the rows whose amount is above 10000 or below -5000, changes no
    cell of [df], and prints these rows when there are some and the fixed
    message otherwise. *)
Theorem outlier_filter_flags :
  (exists s1 d s2 amount found,
      step1 init = Some s1 /\ df s1 = Some d /\ step2 s1 = Some s2 /\
      getitem d "交易金额" = Some amount /\
      abnormal s2 = Some found /\
      found = getitem_mask d (map flagged_cell (values amount)) /\
      index found = [6] /\
      rows found =
        [[Int 1007; Str "C1005"; Str "存款"; Int 12000; Str "手机银行"; Str "成功"]] /\
      flagged (-3500) = false) /\
  (forall (s s' : state) (d : DataFrame),
      df s = Some d ->
      check_outliers s = Some s' ->
      exists amount found,
        getitem d "交易金额" = Some amount /\
        found = getitem_mask d (map flagged_cell (values amount)) /\
        abnormal s' = Some found /\
        df s' = Some d /\
        stdout s' = stdout s ++
          [Text "检查交易金额异常值（>10000或<-5000）：";
           if empty found then Text no_outlier_message else Frame found]).
Proof.
  split.
  - let r1 := eval vm_compute in (step1 init) in
    match r1 with
    | Some ?s1 =>
        let rd := eval vm_compute in (df s1) in
        let r2 := eval vm_compute in (step2 s1) in
        match rd with
        | Some ?d =>
            match r2 with
            | Some ?s2 =>
                let ra := eval vm_compute in (abnormal s2) in
                let rm := eval vm_compute in (getitem d "交易金额") in
                match ra with
                | Some ?found =>
                    match rm with
                    | Some ?amount =>
                        exists s1, d, s2, amount, found;
                        assert (Hd : df s1 = Some d) by reflexivity;
                        assert (H2 : step2 s1 = Some s2) by (vm_compute; reflexivity);
                        destruct (step2_abnormal s1 s2 d Hd H2) as (a & Ha & Hab);
                        injection Ha as <-;
                        split; [vm_compute; reflexivity|];
                        split; [exact Hd|];
                        split; [exact H2|];
                        split; [reflexivity|];
                        split; [exact Hab|];
                        repeat split; vm_compute; reflexivity
                    end
                end
            end
        end
    end.
  - exact check_outliers_spec.
Qed.

(** A table with a single ordinary amount: nothing is flagged and the
    fixed message is what the check prints. *)
Lemma outlier_message_when_none :
  exists s s',
    df s = Some {| index := [0]; columns := [("交易金额", Plain [Int 100])] |} /\
    check_outliers s = Some s' /\
    abnormal s' = Some {| index := []; columns := [("交易金额", Plain [])] |} /\
    stdout s' = stdout s ++
      [Text "检查交易金额异常值（>10000或<-5000）："; Text no_outlier_message].
Proof.
  pose (t := {| index := [0]; columns := [("交易金额", Plain [Int 100])] |}).
  pose (s := set_df t init).
  exists s.
  let r := eval vm_compute in (check_outliers s) in
  match r with
  | Some ?s' => exists s'; assert (H : check_outliers s = Some s') by reflexivity
  end.
  split; [reflexivity|]. split; [exact H|].
  destruct (proj2 outlier_filter_flags s _ t eq_refl H)
    as (amount & found & Ha & Hf & Hab & _ & Hout).
  injection Ha as <-. subst found.
  split; [exact Hab|exact Hout].
Defined.

(** The filter does not return the two rows with amounts 12000 and -3500. *)
Lemma outliers_not_12000_and_minus_3500 :
  ~ (exists s1 s2 found amount,
        step1 init = Some s1 /\ step2 s1 = Some s2 /\
        abnormal s2 = Some found /\
        List.length (index found) = 2%nat /\
        getitem found "交易金额" = Some amount /\
        values amount = [Int 12000; Int (-3500)]).
Proof.
  intros (s1 & s2 & found & amount & H1 & H2 & Hab & Hlen & _).
  vm_compute in H1. injection H1 as <-.
  vm_compute in H2. injection H2 as <-.
  vm_compute in Hab. injection Hab as <-.
  discriminate Hlen.
Qed.

(** ** The failure filter *)

(** C4: at the end of the script [failed_transactions] is the table of
    the rows of [df] whose status is the str 失败; it has exactly one row,
    labelled 4, whose customer is C1004 and whose amount is -500. *)
Theorem failed_transactions_single :
  exists s d status found customer amount,
    main init = Some s /\ df s = Some d /\
    getitem d "交易状态" = Some status /\
    failed_transactions s = Some found /\
    found = getitem_mask d (eq_str status "失败") /\
    shape found = (1%nat, 6%nat) /\
    index found = [4] /\
    rows found =
      [[Int 1005; Str "C1004"; Str "取款"; Int (-500); Str "ATM"; Str "失败"]] /\
    getitem found "客户ID" = Some customer /\ values customer = [Str "C1004"] /\
    getitem found "交易金额" = Some amount /\ values amount = [Int (-500)].
Proof.
  let r := eval vm_compute in (main init) in
  match r with
  | Some ?s =>
      let rd := eval vm_compute in (df s) in
      let rf := eval vm_compute in (failed_transactions s) in
      match rd with
      | Some ?d =>
          match rf with
          | Some ?found =>
              exists s, d; do 2 eexists; exists (Plain [Str "C1004"]), (Plain [Int (-500)]);
              split; [vm_compute; reflexivity|];
              split; [reflexivity|];
              split; [reflexivity|];
              split; [reflexivity|];
              repeat split; vm_compute; reflexivity
          end
      end
  end.
Qed.

(** ** Signs of the amounts *)

Lemma amount_at_cons (amount : column) (P : Z -> Prop) (a : Z) (rest : list nat) (i : nat) :
  nth_error (values amount) i = Some (Int a) -> P a ->
  Forall (amount_at amount P) rest ->
  Forall (amount_at amount P) (i :: rest).
Proof.
  intros Hn Hp Hrest. constructor; [|exact Hrest]. now exists a.
Qed.

(** C10: in the generated table every row has one of the three types;
    a deposit row has a strictly positive amount, a withdrawal or
    transfer row a strictly negative one.  Hence every group of rows
    that the summary by type aggregates, after cleaning, holds amounts of
    one sign only. *)
Theorem amount_sign_by_type :
  exists s1 d kind amount s2 d2 kind2,
    step1 init = Some s1 /\ df s1 = Some d /\
    getitem d "交易类型" = Some kind /\
    getitem d "交易金额" = Some amount /\
    (forall i : nat, (i < 20)%nat ->
       exists t a,
         nth_error (values kind) i = Some (Str t) /\
         nth_error (values amount) i = Some (Int a) /\
         (t = deposit \/ t = withdrawal \/ t = transfer) /\
         (t = deposit -> 0 < a) /\
         (t = withdrawal \/ t = transfer -> a < 0)) /\
    step2 s1 = Some s2 /\ df s2 = Some d2 /\
    getitem d2 "交易类型" = Some kind2 /\
    getitem d2 "交易金额" = Some amount /\
    Forall (fun g => Forall (amount_at amount (fun a => 0 < a)) (snd g) \/
                     Forall (amount_at amount (fun a => a < 0)) (snd g))
           (groupby kind2).
Proof.
  let r1 := eval vm_compute in (step1 init) in
  match r1 with
  | Some ?s1 =>
      let rd := eval vm_compute in (df s1) in
      let r2 := eval vm_compute in (step2 s1) in
      match rd with
      | Some ?d =>
          let rk := eval vm_compute in (getitem d "交易类型") in
          let ra := eval vm_compute in (getitem d "交易金额") in
          match rk with
          | Some ?kind =>
              match ra with
              | Some ?amount =>
                  match r2 with
                  | Some ?s2 =>
                      let rd2 := eval vm_compute in (df s2) in
                      match rd2 with
                      | Some ?d2 =>
                          let rk2 := eval vm_compute in (getitem d2 "交易类型") in
                          match rk2 with
                          | Some ?kind2 => exists s1, d, kind, amount, s2, d2, kind2
                          end
                      end
                  end
              end
          end
      end
  end.
  split; [vm_compute; reflexivity|].
  split; [reflexivity|].
  split; [reflexivity|].
  split; [reflexivity|].
  split; [|split; [vm_compute; reflexivity|]; split; [reflexivity|];
           split; [reflexivity|]; split; [reflexivity|]].
  - intros i Hi.
    do 20 (destruct i as [|i];
           [do 2 eexists;
            split; [reflexivity|];
            split; [reflexivity|];
            unfold deposit, withdrawal, transfer;
            split; [tauto|];
            split; [intros H; first [discriminate H | reflexivity]
                   |intros [H|H]; first [discriminate H | reflexivity]]
           |]).
    lia.
  - vm_compute groupby.
    apply Forall_cons;
      [right | apply Forall_cons;
               [left | apply Forall_cons; [right | apply Forall_nil]]];
      repeat (eapply amount_at_cons; [reflexivity | reflexivity |]);
      apply Forall_nil.
Qed.

(** ** Grouping *)

Lemma group_rows_In (key : column) (k : cell) (i : nat) :
  In i (group_rows key k) <->
  (i < List.length (values key))%nat /\ nth i (values key) NaN = k.
Proof.
  unfold group_rows. rewrite filter_In, in_seq, cell_eqb_eq. intuition lia.
Qed.

Lemma group_rows_NoDup (key : column) (k : cell) : NoDup (group_rows key k).
Proof. apply NoDup_filter, seq_NoDup. Qed.

Lemma groups_disjoint (key : column) (keys : list cell) :
  NoDup keys -> NoDup (concat (map (group_rows key) keys)).
Proof.
  induction 1 as [|k keys Hk Hnd IH]; simpl; [constructor|].
  apply NoDup_app; [apply group_rows_NoDup | exact IH |].
  intros i Hi Hc. apply group_rows_In in Hi. destruct Hi as [_ Hi].
  apply in_concat in Hc. destruct Hc as (g & Hg & Hig).
  apply in_map_iff in Hg. destruct Hg as (k' & <- & Hk').
  apply group_rows_In in Hig. destruct Hig as [_ Hig].
  congruence.
Qed.

Lemma groupby_rows (key : column) :
  map snd (groupby key) = map (group_rows key) (group_keys key).
Proof. unfold groupby. rewrite map_map. reflexivity. Qed.

(** When the keys are distinct and every cell of the key column is one of
    them, the groups split the rows: each row is in exactly one group. *)
Lemma groupby_partition (key : column) :
  NoDup (group_keys key) ->
  Forall (fun v => In v (group_keys key)) (values key) ->
  Permutation (concat (map snd (groupby key)))
              (seq 0 (List.length (values key))).
Proof.
  intros Hnd Hall. rewrite groupby_rows.
  apply NoDup_Permutation.
  - now apply groups_disjoint.
  - apply seq_NoDup.
  - intros i. rewrite in_seq, in_concat. split.
    + intros (g & Hg & Hi). apply in_map_iff in Hg.
      destruct Hg as (k & <- & _). apply group_rows_In in Hi. lia.
    + intros Hi. exists (group_rows key (nth i (values key) NaN)). split.
      * apply in_map. rewrite Forall_forall in Hall. apply Hall.
        apply nth_In. lia.
      * apply group_rows_In. split; [lia|reflexivity].
Qed.

Lemma dedup_NoDup (xs : list cell) : NoDup (dedup xs).
Proof.
  induction xs as [|x xs IH]; simpl; constructor.
  - rewrite filter_In, cell_eqb_refl. intros [_ H]. discriminate.
  - now apply NoDup_filter.
Qed.

Lemma categories_of_NoDup (xs : list cell) : NoDup (categories_of xs).
Proof.
  unfold categories_of.
  destruct (forallb is_str _ || forallb is_int _).
  - eapply Permutation_NoDup; [apply isort_perm | apply dedup_NoDup].
  - apply dedup_NoDup.
Qed.

(** Grouping by a column retyped from cells without missing values splits
    all of its rows. *)
Lemma groupby_category_partition (xs : list cell) :
  forallb notnull xs = true ->
  Permutation (concat (map snd (groupby (astype_category (Plain xs)))))
              (seq 0 (List.length xs)).
Proof.
  intros Hnn.
  pose proof (groupby_partition (astype_category (Plain xs))) as H.
  rewrite astype_category_values in H. apply H.
  - apply categories_of_NoDup.
  - simpl. rewrite forallb_forall in Hnn. apply Forall_forall.
    intros x Hx. apply categories_of_In. auto.
Qed.

(** C7: the summary by type has one line per type, whose count is the
    size of the group of rows of that type: 6 withdrawals, 8 deposits and
    6 transfers, 20 in all; the three groups together hold each of the
    row positions 0..19 exactly once. *)
Theorem type_groups_partition :
  exists s d types kind summary,
    main init = Some s /\ df s = Some d /\
    In ("交易类型", types) data /\
    getitem d "交易类型" = Some kind /\
    kind = astype_category (Plain types) /\
    type_summary s = Some summary /\
    map fst summary = map fst (groupby kind) /\
    map (fun ka => agg_count (snd ka)) summary =
      map (fun g => Z.of_nat (List.length (snd g))) (groupby kind) /\
    map (fun ka => (fst ka, agg_count (snd ka))) summary =
      [(Str withdrawal, 6); (Str deposit, 8); (Str transfer, 6)] /\
    Zsum (map (fun ka => agg_count (snd ka)) summary) = 20 /\
    Permutation (concat (map snd (groupby kind))) (seq 0 20).
Proof.
  let r := eval vm_compute in (main init) in
  match r with
  | Some ?s =>
      let rd := eval vm_compute in (df s) in
      let rt := eval vm_compute in (type_summary s) in
      match rd with
      | Some ?d =>
          match rt with
          | Some ?summary =>
              let types := eval cbv [data nth snd] in (snd (nth 2 data ("", []))) in
              exists s, d, types, (astype_category (Plain types)), summary
          end
      end
  end.
  split; [vm_compute; reflexivity|].
  split; [reflexivity|].
  split; [simpl; tauto|].
  split; [vm_compute; reflexivity|].
  split; [reflexivity|].
  split; [reflexivity|].
  split; [vm_compute; reflexivity|].
  split; [vm_compute; reflexivity|].
  split; [reflexivity|].
  split; [reflexivity|].
  match goal with
  | |- Permutation (concat (map snd (groupby (astype_category (Plain ?xs))))) _ =>
      exact (groupby_category_partition xs eq_refl)
  end.
Qed.

(** ** Counting values *)

Lemma count_cell_occ (k : cell) (xs : list cell) :
  count_cell k xs = Z.of_nat (count_occ cell_eq_dec xs k).
Proof.
  unfold count_cell. induction xs as [|x xs IH]; [reflexivity|].
  change (map (cell_eqb k) (x :: xs)) with (cell_eqb k x :: map (cell_eqb k) xs).
  rewrite count_true_cons, IH. cbn [count_occ].
  destruct (cell_eq_dec x k) as [->|n].
  - rewrite cell_eqb_refl. lia.
  - destruct (cell_eqb k x) eqn:E; [|lia].
    apply cell_eqb_eq in E. congruence.
Qed.

Lemma value_counts_In (c : column) (k : cell) (n : Z) :
  In (k, n) (value_counts c) <->
  In k (counted_keys c) /\ n = count_cell k (values c).
Proof.
  unfold value_counts.
  rewrite isort_In, in_map_iff. split.
  - intros (k' & Heq & Hin). injection Heq as -> ->. tauto.
  - intros [Hin ->]. exists k. tauto.
Qed.

Lemma decode_In (cats : list cell) (k : Z) :
  decode cats k <> NaN -> In (decode cats k) cats.
Proof.
  unfold decode. destruct (k <? 0); [congruence|].
  destruct (nth_error cats (Z.to_nat k)) as [x|] eqn:E; [|congruence].
  intros _. eapply nth_error_In, E.
Qed.

Lemma counted_keys_cover (c : column) (x : cell) :
  In x (values c) -> x <> NaN -> In x (counted_keys c).
Proof.
  destruct c as [xs|cats codes]; simpl; intros Hin Hx.
  - rewrite dedup_In, filter_In. split; [exact Hin|].
    destruct x; try reflexivity. congruence.
  - apply in_map_iff in Hin. destruct Hin as (k & <- & _).
    now apply decode_In.
Qed.

Lemma by_count_desc_total (a b : cell * Z) :
  by_count_desc a b = true \/ by_count_desc b a = true.
Proof. unfold by_count_desc. rewrite !Z.leb_le. lia. Qed.

Lemma sorted_adjacent {A : Type} (R : A -> A -> Prop) (l : list A) :
  Sorted R l ->
  forall (i : nat) (a b : A),
    nth_error l i = Some a -> nth_error l (S i) = Some b -> R a b.
Proof.
  induction 1 as [|h t Hs IH Hh]; intros i a b Ha Hb.
  - destruct i; discriminate.
  - destruct i as [|i].
    + simpl in Ha, Hb. injection Ha as <-.
      destruct Hh as [|h' t' Hr]; [discriminate|].
      simpl in Hb. now injection Hb as <-.
    + exact (IH i a b Ha Hb).
Qed.

Lemma value_counts_descending (c : column) (i : nat) (a b : cell * Z) :
  nth_error (value_counts c) i = Some a ->
  nth_error (value_counts c) (S i) = Some b ->
  snd b <= snd a.
Proof.
  intros Ha Hb. apply Z.leb_le.
  exact (sorted_adjacent _ _
           (isort_sorted by_count_desc by_count_desc_total _) i a b Ha Hb).
Qed.

Lemma value_counts_keys_NoDup (xs : list cell) :
  NoDup (map fst (value_counts (astype_category (Plain xs)))).
Proof.
  unfold value_counts. simpl.
  eapply Permutation_NoDup.
  - apply Permutation_map, isort_perm.
  - rewrite map_map. simpl. rewrite map_id. apply categories_of_NoDup.
Qed.

(** C9: [channel_count] is the value count of the channel column, here
    five rows for each of the four channels.  On any column the value
    count gives, for every value that occurs, the number of rows holding
    it; every entry it gives is such a number; and the counts never
    increase from one entry to the next.  After retyping, no value is
    listed twice. *)
Theorem channel_count_descending :
  (exists s d channel,
      main init = Some s /\ df s = Some d /\
      getitem d "交易渠道" = Some channel /\
      channel_count s = Some (value_counts channel) /\
      value_counts channel =
        [(Str "ATM", 5); (Str "手机银行", 5); (Str "柜台", 5); (Str "网银", 5)]) /\
  (forall c : column,
      (forall x, In x (values c) -> x <> NaN ->
                 In (x, Z.of_nat (count_occ cell_eq_dec (values c) x)) (value_counts c)) /\
      (forall k n, In (k, n) (value_counts c) ->
                   n = Z.of_nat (count_occ cell_eq_dec (values c) k)) /\
      (forall i a b,
          nth_error (value_counts c) i = Some a ->
          nth_error (value_counts c) (S i) = Some b ->
          snd b <= snd a)) /\
  (forall xs : list cell,
      NoDup (map fst (value_counts (astype_category (Plain xs))))).
Proof.
  split; [|split].
  - let r := eval vm_compute in (main init) in
    match r with
    | Some ?s =>
        let rd := eval vm_compute in (df s) in
        match rd with
        | Some ?d =>
            let rc := eval vm_compute in (getitem d "交易渠道") in
            match rc with
            | Some ?channel =>
                exists s, d, channel;
                split; [vm_compute; reflexivity|];
                repeat split; vm_compute; reflexivity
            end
        end
    end.
  - intros c. split; [|split].
    + intros x Hin Hx. apply value_counts_In. split.
      * now apply counted_keys_cover.
      * symmetry. apply count_cell_occ.
    + intros k n Hin. apply value_counts_In in Hin.
      destruct Hin as [_ ->]. apply count_cell_occ.
    + apply value_counts_descending.
  - apply value_counts_keys_NoDup.
Qed.

(** The general statement at the channel column of the cleaned table: the
    channel 网银 is listed with its five rows, and the second count does
    not exceed the first. *)
Lemma channel_count_online :
  exists channel : column,
    channel = astype_category (Plain (map Str
       ["网银"; "ATM"; "手机银行"; "柜台"; "ATM"; "网银"; "手机银行"; "柜台"; "网银"; "手机银行";
        "ATM"; "柜台"; "网银"; "手机银行"; "ATM"; "手机银行"; "柜台"; "ATM"; "网银"; "柜台"])) /\
    In (Str "网银", 5) (value_counts channel) /\
    (forall a b, nth_error (value_counts channel) 0 = Some a ->
                 nth_error (value_counts channel) 1 = Some b -> snd b <= snd a).
Proof.
  eexists. split; [reflexivity|].
  match goal with
  | |- In _ (value_counts ?c) /\ _ =>
      destruct (proj1 (proj2 channel_count_descending) c) as (Hall & _ & Hdesc)
  end.
  split.
  - apply (Hall (Str "网银")).
    + vm_compute. tauto.
    + discriminate.
  - exact (Hdesc 0%nat).
Defined.

(** ** Determinism *)

Lemma framed_bind (f g : state -> option state) :
  framed f -> framed g -> framed (fun s => s' <- f s ;; g s').
Proof.
  intros Hf Hg l s. rewrite Hf.
  destruct (f s) as [s'|]; simpl; [apply Hg | reflexivity].
Qed.

Lemma print_prepend (p : printed) (l : list printed) (s : state) :
  print p (prepend l s) = prepend l (print p s).
Proof. unfold print, prepend. simpl. now rewrite app_assoc. Qed.

Lemma goto_prepend (p : stage) (l : list printed) (s : state) :
  goto p (prepend l s) = prepend l (goto p s).
Proof. reflexivity. Qed.

Lemma set_df_prepend (d : DataFrame) (l : list printed) (s : state) :
  set_df d (prepend l s) = prepend l (set_df d s).
Proof. reflexivity. Qed.

Lemma set_duplicate_rows_prepend (n : Z) (l : list printed) (s : state) :
  set_duplicate_rows n (prepend l s) = prepend l (set_duplicate_rows n s).
Proof. reflexivity. Qed.

Lemma set_abnormal_prepend (d : DataFrame) (l : list printed) (s : state) :
  set_abnormal d (prepend l s) = prepend l (set_abnormal d s).
Proof. reflexivity. Qed.

Lemma set_type_summary_prepend (t : list (cell * agg)) (l : list printed) (s : state) :
  set_type_summary t (prepend l s) = prepend l (set_type_summary t s).
Proof. reflexivity. Qed.

Lemma set_channel_count_prepend (c : list (cell * Z)) (l : list printed) (s : state) :
  set_channel_count c (prepend l s) = prepend l (set_channel_count c s).
Proof. reflexivity. Qed.

Lemma set_failed_transactions_prepend (d : DataFrame) (l : list printed) (s : state) :
  set_failed_transactions d (prepend l s) = prepend l (set_failed_transactions d s).
Proof. reflexivity. Qed.

Lemma set_figure_prepend (f : list (cell * Z) * list (cell * Z)) (l : list printed) (s : state) :
  set_figure f (prepend l s) = prepend l (set_figure f s).
Proof. reflexivity. Qed.

Lemma df_prepend (l : list printed) (s : state) : df (prepend l s) = df s.
Proof. reflexivity. Qed.

Lemma type_summary_prepend (l : list printed) (s : state) :
  type_summary (prepend l s) = type_summary s.
Proof. reflexivity. Qed.

Lemma channel_count_prepend (l : list printed) (s : state) :
  channel_count (prepend l s) = channel_count s.
Proof. reflexivity. Qed.

Create Rewrite HintDb frame.

#[local] Hint Rewrite print_prepend goto_prepend set_df_prepend
  set_duplicate_rows_prepend set_abnormal_prepend set_type_summary_prepend
  set_channel_count_prepend set_failed_transactions_prepend set_figure_prepend
  df_prepend type_summary_prepend channel_count_prepend : frame.

(** Proves [framed f] for a statement [f] made of prints, bindings and
    reads of global names. *)
Ltac framed_leaf f :=
  intros l s; unfold f;
  repeat (autorewrite with frame;
          try match goal with
              | |- context [bind ?m _] => destruct m; cbn [bind option_map]
              | |- context [if ?b then _ else _] => destruct b; cbn [option_map]
              end);
  reflexivity.

Lemma step1_framed : framed step1.
Proof. framed_leaf step1. Qed.

Lemma check_missing_framed : framed check_missing.
Proof. framed_leaf check_missing. Qed.

Lemma check_duplicates_framed : framed check_duplicates.
Proof. framed_leaf check_duplicates. Qed.

Lemma check_outliers_framed : framed check_outliers.
Proof. framed_leaf check_outliers. Qed.

Lemma retype_framed : framed retype.
Proof. framed_leaf retype. Qed.

Lemma step2_framed : framed step2.
Proof.
  intros l s. unfold step2. rewrite print_prepend.
  set (s0 := print _ s).
  pose proof (framed_bind _ _ check_missing_framed
                (framed_bind _ _ check_duplicates_framed
                   (framed_bind _ _ check_outliers_framed
                      (framed_bind _ _ retype_framed
                         (fun l s => eq_refl : (fun s => Some (goto Analyze s)) (prepend l s) = _)))))
    as H.
  exact (H l s0).
Qed.

Lemma describe_amount_framed : framed describe_amount.
Proof. framed_leaf describe_amount. Qed.

Lemma summarize_types_framed : framed summarize_types.
Proof. framed_leaf summarize_types. Qed.

Lemma count_channels_framed : framed count_channels.
Proof. framed_leaf count_channels. Qed.

Lemma find_failed_framed : framed find_failed.
Proof. framed_leaf find_failed. Qed.

Lemma step3_framed : framed step3.
Proof.
  intros l s. unfold step3. rewrite print_prepend.
  set (s0 := print _ s).
  pose proof (framed_bind _ _ describe_amount_framed
                (framed_bind _ _ summarize_types_framed
                   (framed_bind _ _ count_channels_framed
                      (framed_bind _ _ find_failed_framed
                         (fun l s => eq_refl : (fun s => Some (goto Visualize s)) (prepend l s) = _)))))
    as H.
  exact (H l s0).
Qed.

Lemma step4_framed : framed step4.
Proof. framed_leaf step4. Qed.

(** The whole script commutes with [prepend]: what it binds and what it
    prints do not depend on what was on the screen before. *)
Lemma main_framed : framed main.
Proof.
  exact (framed_bind _ _ step1_framed
           (framed_bind _ _ step2_framed
              (framed_bind _ _ step3_framed step4_framed))).
Qed.

(** *** Runs *)

Lemma step1_pc (s s' : state) : step1 s = Some s' -> pc s' = Clean.
Proof. unfold step1. intros H. bind_inv H. now injection H as <-. Qed.

Lemma step2_pc (s s' : state) : step2 s = Some s' -> pc s' = Analyze.
Proof. unfold step2. intros H. repeat bind_inv H. now injection H as <-. Qed.

Lemma step3_pc (s s' : state) : step3 s = Some s' -> pc s' = Visualize.
Proof. unfold step3. intros H. repeat bind_inv H. now injection H as <-. Qed.

Lemma step4_pc (s s' : state) : step4 s = Some s' -> pc s' = Finished.
Proof. unfold step4. intros H. repeat bind_inv H. now injection H as <-. Qed.

Lemma step_inv (s s' : state) : step s s' -> exec s = Some s'.
Proof. now intros [? ? H]. Qed.

Lemma step_deterministic (s s1 s2 : state) : step s s1 -> step s s2 -> s1 = s2.
Proof.
  intros H1 H2. apply step_inv in H1, H2. congruence.
Qed.

Lemma finished_stuck (s s' : state) : pc s = Finished -> ~ step s s'.
Proof.
  intros Hpc H. apply step_inv in H. unfold exec in H.
  rewrite Hpc in H. discriminate.
Qed.

(** A run from the first step to the end is the four steps in order. *)
Lemma run_main (i f : state) :
  pc i = Generate -> run i f -> pc f = Finished -> main i = Some f.
Proof.
  intros Hi Hrun Hf. unfold main.
  inversion Hrun as [|? s1 ? Hs1 Hr1]; subst; [congruence|].
  pose proof (step_inv _ _ Hs1) as H1. unfold exec in H1. rewrite Hi in H1.
  rewrite H1. simpl. pose proof (step1_pc _ _ H1) as Hp1.
  inversion Hr1 as [|? s2 ? Hs2 Hr2]; subst; [congruence|].
  pose proof (step_inv _ _ Hs2) as H2. unfold exec in H2. rewrite Hp1 in H2.
  rewrite H2. simpl. pose proof (step2_pc _ _ H2) as Hp2.
  inversion Hr2 as [|? s3 ? Hs3 Hr3]; subst; [congruence|].
  pose proof (step_inv _ _ Hs3) as H3. unfold exec in H3. rewrite Hp2 in H3.
  rewrite H3. simpl. pose proof (step3_pc _ _ H3) as Hp3.
  inversion Hr3 as [|? s4 ? Hs4 Hr4]; subst; [congruence|].
  pose proof (step_inv _ _ Hs4) as H4. unfold exec in H4. rewrite Hp3 in H4.
  rewrite H4. pose proof (step4_pc _ _ H4) as Hp4.
  inversion Hr4 as [|? s5 ? Hs5 Hr5]; subst; [reflexivity|].
  exfalso. exact (finished_stuck _ _ Hp4 Hs5).
Qed.

Lemma bind_Some {A B : Type} (m : option A) (k : A -> option B) (b : B) :
  bind m k = Some b -> exists a, m = Some a /\ k a = Some b.
Proof.
  destruct m as [a|]; simpl; intros H; [|discriminate H].
  exists a. split; [reflexivity|exact H].
Qed.

Lemma exec_at (s s' : state) (p : stage) (f : state -> option state) :
  pc s = p ->
  (match p with
   | Generate => step1 | Clean => step2 | Analyze => step3
   | Visualize => step4 | Finished => fun _ => None
   end) = f ->
  f s = Some s' -> step s s'.
Proof.
  intros Hp Hf H. constructor. unfold exec. rewrite Hp.
  subst f. destruct p; exact H.
Qed.

Lemma main_inv (i f : state) :
  main i = Some f ->
  exists s1 s2 s3,
    step1 i = Some s1 /\ step2 s1 = Some s2 /\ step3 s2 = Some s3 /\
    step4 s3 = Some f.
Proof.
  unfold main. intros H.
  apply bind_Some in H. destruct H as (s & E & H).
  apply bind_Some in H. destruct H as (s0 & E0 & H).
  apply bind_Some in H. destruct H as (s1 & E1 & H).
  exists s, s0, s1. auto.
Qed.

Lemma steps_run (i s s0 s1 f : state) :
  pc i = Generate ->
  step1 i = Some s -> step2 s = Some s0 -> step3 s0 = Some s1 ->
  step4 s1 = Some f ->
  run i f /\ pc f = Finished.
Proof.
  intros Hi E E0 E1 H.
  pose proof (step1_pc _ _ E) as Hp1.
  pose proof (step2_pc _ _ E0) as Hp2.
  pose proof (step3_pc _ _ E1) as Hp3.
  split; [|exact (step4_pc _ _ H)].
  apply run_step with s; [exact (exec_at i s Generate step1 Hi eq_refl E)|].
  apply run_step with s0; [exact (exec_at s s0 Clean step2 Hp1 eq_refl E0)|].
  apply run_step with s1; [exact (exec_at s0 s1 Analyze step3 Hp2 eq_refl E1)|].
  apply run_step with f; [exact (exec_at s1 f Visualize step4 Hp3 eq_refl H)|].
  apply run_done.
Qed.

Lemma main_run (i f : state) :
  pc i = Generate -> main i = Some f -> run i f /\ pc f = Finished.
Proof.
  intros Hi H. destruct (main_inv i f H) as (s & s0 & s1 & E & E0 & E1 & E2).
  exact (steps_run i s s0 s1 f Hi E E0 E1 E2).
Qed.

(** Whatever the interpreter held before, the script ends in the state
    it reaches from a fresh interpreter, after what was printed before. *)
Lemma main_any (i : state) :
  exists f0, main init = Some f0 /\ main i = Some (prepend (stdout i) f0).
Proof.
  set (i0 := {| pc := pc i; df := df i; duplicate_rows := duplicate_rows i;
                abnormal := abnormal i; type_summary := type_summary i;
                channel_count := channel_count i;
                failed_transactions := failed_transactions i;
                figure := figure i; stdout := [] |}).
  assert (Hi : i = prepend (stdout i) i0).
  { destruct i. unfold prepend, i0. simpl. now rewrite app_nil_r. }
  assert (H0 : main i0 = main init).
  { unfold i0. destruct i. vm_compute. reflexivity. }
  destruct (main init) as [f0|] eqn:E; [|vm_compute in E; discriminate E].
  exists f0. split; [reflexivity|].
  rewrite Hi at 1. rewrite main_framed, H0. reflexivity.
Qed.

(** The script always runs to its end. *)
Lemma script_terminates (i : state) :
  pc i = Generate -> exists f, run i f /\ pc f = Finished.
Proof.
  intros Hi. destruct (main_any i) as (f0 & _ & H).
  eexists. exact (main_run _ _ Hi H).
Qed.

Ltac find_printed := repeat (first [left; reflexivity | right]).

(** C8: two complete runs of the script print the same things and end
    with the same global values, whatever was bound or printed before
    each run started: the descriptive statistics, the summary by type, the
    channel counts and the failed transactions of one run are those of the
    other.  (By [script_terminates] such runs exist.) *)
Theorem pipeline_deterministic (i1 i2 f1 f2 : state) :
  pc i1 = Generate -> pc i2 = Generate ->
  run i1 f1 -> pc f1 = Finished ->
  run i2 f2 -> pc f2 = Finished ->
  exists (out : list printed) (stats : description)
         (summary : list (cell * agg)) (counts : list (cell * Z))
         (failed : DataFrame),
    stdout f1 = stdout i1 ++ out /\ stdout f2 = stdout i2 ++ out /\
    In (Description stats) out /\
    type_summary f1 = Some summary /\ type_summary f2 = Some summary /\
    In (Summary summary) out /\
    channel_count f1 = Some counts /\ channel_count f2 = Some counts /\
    In (Counts counts) out /\
    failed_transactions f1 = Some failed /\
    failed_transactions f2 = Some failed /\
    In (Frame failed) out /\
    df f1 = df f2 /\ duplicate_rows f1 = duplicate_rows f2 /\
    abnormal f1 = abnormal f2 /\ figure f1 = figure f2.
Proof.
  intros Hi1 Hi2 Hr1 Hf1 Hr2 Hf2.
  pose proof (run_main _ _ Hi1 Hr1 Hf1) as H1.
  pose proof (run_main _ _ Hi2 Hr2 Hf2) as H2.
  destruct (main_any i1) as (f0 & E & E1).
  destruct (main_any i2) as (f0' & E' & E2).
  assert (f0' = f0) by congruence. subst f0'.
  assert (Hf1' : f1 = prepend (stdout i1) f0) by congruence.
  assert (Hf2' : f2 = prepend (stdout i2) f0) by congruence.
  clear - E Hf1' Hf2'. subst f1 f2.
  vm_compute in E. injection E as <-.
  unfold prepend.
  cbn [stdout type_summary channel_count failed_transactions df
       duplicate_rows abnormal figure].
  eexists. do 4 eexists.
  split; [reflexivity|]. split; [reflexivity|].
  split; [find_printed|].
  split; [reflexivity|]. split; [reflexivity|].
  split; [find_printed|].
  split; [reflexivity|]. split; [reflexivity|].
  split; [find_printed|].
  split; [reflexivity|]. split; [reflexivity|].
  split; [find_printed|].
  repeat split.
Qed.

(** A run from a fresh interpreter and a run from a used one. *)
Lemma pipeline_deterministic_two_runs :
  exists f1 f2 : state,
    run init f1 /\ pc f1 = Finished /\
    run used_interpreter f2 /\ pc f2 = Finished /\
    exists (out : list printed) (stats : description)
           (summary : list (cell * agg)) (counts : list (cell * Z))
           (failed : DataFrame),
      stdout f1 = stdout init ++ out /\
      stdout f2 = stdout used_interpreter ++ out /\
      In (Description stats) out /\
      type_summary f1 = Some summary /\ type_summary f2 = Some summary /\
      In (Summary summary) out /\
      channel_count f1 = Some counts /\ channel_count f2 = Some counts /\
      In (Counts counts) out /\
      failed_transactions f1 = Some failed /\
      failed_transactions f2 = Some failed /\
      In (Frame failed) out /\
      df f1 = df f2 /\ duplicate_rows f1 = duplicate_rows f2 /\
      abnormal f1 = abnormal f2 /\ figure f1 = figure f2.
Proof.
  let r1 := eval vm_compute in (main init) in
  let r2 := eval vm_compute in (main used_interpreter) in
  match r1 with
  | Some ?f1 =>
      match r2 with
      | Some ?f2 =>
          exists f1, f2;
          assert (M1 : main init = Some f1) by (vm_compute; reflexivity);
          assert (M2 : main used_interpreter = Some f2) by (vm_compute; reflexivity);
          destruct (main_run init f1 eq_refl M1) as [R1 P1];
          destruct (main_run used_interpreter f2 eq_refl M2) as [R2 P2];
          split; [exact R1|]; split; [exact P1|];
          split; [exact R2|]; split; [exact P2|];
          exact (pipeline_deterministic init used_interpreter f1 f2
                   eq_refl eq_refl R1 P1 R2 P2)
      end
  end.
Defined.

(** * Further properties of the script's operations *)

(** ** Boolean indexing keeps whole rows *)

Lemma rows_transpose (t : DataFrame) :
  rows t = transpose (List.length (index t)) (cells_of (columns t)).
Proof.
  unfold rows, transpose, cells_of. apply map_ext. intros i.
  unfold row_at, cross. now rewrite map_map.
Qed.

Lemma transpose_succ (n : nat) (vs : list (list cell)) :
  transpose (S n) vs = cross vs 0 :: transpose n (map (@tl cell) vs).
Proof.
  unfold transpose. cbn [seq map]. f_equal.
  rewrite <- seq_shift, map_map. apply map_ext. intros i.
  unfold cross. rewrite map_map. apply map_ext. intros v.
  destruct v as [|x v]; [now destruct i|reflexivity].
Qed.

Lemma select_nil {A : Type} (mask : list bool) : select mask (@nil A) = [].
Proof. destruct mask as [|[|] m]; reflexivity. Qed.

Lemma select_cons {A : Type} (b : bool) (mask : list bool) (x : A) (xs : list A) :
  select (b :: mask) (x :: xs) =
  if b then x :: select mask xs else select mask xs.
Proof. reflexivity. Qed.

Lemma select_map {A B : Type} (f : A -> B) (mask : list bool) (xs : list A) :
  select mask (map f xs) = map f (select mask xs).
Proof.
  revert xs. induction mask as [|b m IH]; intros xs; [reflexivity|].
  destruct xs as [|x xs]; [reflexivity|].
  cbn [map select]. destruct b; cbn [map]; now rewrite IH.
Qed.

Lemma select_column_values (mask : list bool) (c : column) :
  values (select_column mask c) = select mask (values c).
Proof.
  destruct c as [xs|cats codes]; simpl; [reflexivity|].
  now rewrite select_map.
Qed.

Lemma select_transpose (mask : list bool) (idx : list Z) (vs : list (list cell)) :
  Forall (fun v => List.length v = List.length idx) vs ->
  transpose (List.length (select mask idx)) (map (select mask) vs) =
  select mask (transpose (List.length idx) vs).
Proof.
  revert idx vs. induction mask as [|b m IH]; intros idx vs Hwf.
  - reflexivity.
  - destruct idx as [|i idx].
    + cbn [select List.length]. unfold transpose. cbn [seq map].
      reflexivity.
    + assert (Htl : Forall (fun v => List.length v = List.length idx)
                           (map (@tl cell) vs)).
      { apply Forall_map. eapply Forall_impl; [|exact Hwf].
        intros [|x v] Hv; simpl in Hv; [discriminate|]. simpl. lia. }
      assert (Hsel : map (select m) (map (@tl cell) vs) =
                     map (@tl cell) (map (select (true :: m)) vs) /\
                     map (select m) (map (@tl cell) vs) =
                     map (select (false :: m)) vs /\
                     cross (map (select (true :: m)) vs) 0 = cross vs 0).
      { unfold cross. rewrite !map_map. rewrite Forall_forall in Hwf.
        repeat split; apply map_ext_in; intros v Hv;
          specialize (Hwf v Hv); destruct v as [|x v];
          try discriminate Hwf; reflexivity. }
      destruct Hsel as (H1 & H2 & H3).
      cbn [List.length]. rewrite (transpose_succ (List.length idx) vs).
      rewrite !select_cons.
      destruct b.
      * cbn [List.length]. rewrite transpose_succ, H3, <- H1.
        f_equal. now apply IH.
      * rewrite <- H2. now apply IH.
Qed.

Lemma select_length_le {A : Type} (mask : list bool) (xs : list A) :
  (List.length (select mask xs) <= List.length xs)%nat.
Proof.
  revert xs. induction mask as [|b m IH]; intros xs; simpl; [lia|].
  destruct xs as [|x xs]; simpl; [lia|].
  specialize (IH xs). destruct b; simpl; lia.
Qed.

Lemma select_same_length {A B : Type} (mask : list bool) (xs : list A) (ys : list B) :
  List.length xs = List.length ys ->
  List.length (select mask xs) = List.length (select mask ys).
Proof.
  revert xs ys. induction mask as [|b m IH]; intros xs ys H; [reflexivity|].
  destruct xs as [|x xs], ys as [|y ys]; try discriminate H; [reflexivity|].
  injection H as H. cbn [select]. destruct b; cbn [List.length]; auto.
Qed.

Lemma cells_of_getitem_mask (t : DataFrame) (mask : list bool) :
  cells_of (columns (getitem_mask t mask)) =
  map (select mask) (cells_of (columns t)).
Proof.
  unfold cells_of. simpl. rewrite !map_map. apply map_ext. intros kc.
  apply select_column_values.
Qed.

Lemma getitem_mask_well_formed (t : DataFrame) (mask : list bool) :
  well_formed t -> well_formed (getitem_mask t mask).
Proof.
  unfold well_formed. simpl. intros H. apply Forall_map.
  eapply Forall_impl; [|exact H]. intros kc Hkc. simpl.
  rewrite select_column_values. now apply select_same_length.
Qed.

Lemma getitem_mask_rows (t : DataFrame) (mask : list bool) :
  well_formed t -> rows (getitem_mask t mask) = select mask (rows t).
Proof.
  intros H. rewrite !rows_transpose, cells_of_getitem_mask.
  apply select_transpose. unfold cells_of. now apply Forall_map.
Qed.

(** Selecting by a mask computed from a second list is filtering the
    pairs. *)
Lemma select_by {A B : Type} (f : B -> bool) (ys : list B) (xs : list A) :
  select (map f ys) xs = map fst (filter (fun p => f (snd p)) (combine xs ys)).
Proof.
  revert xs. induction ys as [|y ys IH]; intros xs.
  - destruct xs; reflexivity.
  - destruct xs as [|x xs]; [reflexivity|].
    cbn [map combine filter snd]. rewrite select_cons, IH.
    destruct (f y); reflexivity.
Qed.

(** X3: the failure filter (line 82).  On a well-formed table, when the
    statement succeeds [failed_transactions] holds exactly the rows of
    [df] whose status cell is the str 失败, whole and in their order; the
    result is well formed and [df] itself is unchanged. *)
Theorem failure_filter_rows (s s' : state) (d : DataFrame) :
  df s = Some d ->
  well_formed d ->
  find_failed s = Some s' ->
  exists status failed,
    getitem d "交易状态" = Some status /\
    failed_transactions s' = Some failed /\
    df s' = Some d /\
    well_formed failed /\
    rows failed =
      map fst (filter (fun rc => cell_eqb (snd rc) (Str failure))
                      (combine (rows d) (values status))).
Proof.
  intros Hd Hwf H. unfold find_failed in H.
  cbn [df print] in H. rewrite Hd in H. cbn [bind] in H.
  apply bind_Some in H. destruct H as (status & Hs & H).
  injection H as <-.
  exists status, (getitem_mask d (eq_str status "失败")).
  split; [exact Hs|]. split; [reflexivity|]. split; [exact Hd|].
  split; [now apply getitem_mask_well_formed|].
  rewrite getitem_mask_rows by exact Hwf.
  unfold eq_str.
  exact (select_by (fun x => cell_eqb x (Str failure)) (values status) (rows d)).
Qed.

(** A table of three transactions, the second of which failed. *)
Lemma failure_filter_rows_example :
  exists s s' d failed,
    df s = Some d /\ find_failed s = Some s' /\
    failed_transactions s' = Some failed /\
    rows d = [[Int 1; Str "成功"]; [Int 2; Str "失败"]; [Int 3; Str "成功"]] /\
    rows failed = [[Int 2; Str "失败"]].
Proof.
  pose (d := {| index := [0; 1; 2];
                columns := [("交易ID", Plain [Int 1; Int 2; Int 3]);
                            ("交易状态", Plain [Str "成功"; Str "失败"; Str "成功"])] |}).
  pose (s := set_df d init).
  assert (Hwf : well_formed d) by (repeat constructor).
  let r := eval vm_compute in (find_failed s) in
  match r with
  | Some ?s' =>
      assert (H : find_failed s = Some s') by reflexivity;
      destruct (failure_filter_rows s s' d eq_refl Hwf H)
        as (status & failed & Hs & Hf & _ & _ & Hrows);
      exists s, s', d, failed
  end.
  injection Hs as <-.
  split; [reflexivity|]. split; [exact H|]. split; [exact Hf|].
  split; [reflexivity|]. exact Hrows.
Defined.

Lemma rows_length (t : DataFrame) : List.length (rows t) = List.length (index t).
Proof. unfold rows. now rewrite length_map, length_seq. Qed.

Lemma empty_rows (t : DataFrame) :
  columns t <> [] -> (empty t = true <-> rows t = []).
Proof.
  intros Hc. pose proof (rows_length t) as Hl. unfold empty.
  destruct (index t) as [|i idx]; simpl in Hl.
  - split; [|reflexivity]. intros _. now apply length_zero_iff_nil.
  - destruct (columns t); [contradiction|].
    split; [discriminate|]. intros H. rewrite H in Hl. discriminate.
Qed.

(** X2: the outlier check (lines 49-57).  On a well-formed table, when
    the check succeeds [abnormal] holds exactly the rows of [df] whose
    amount is above 10000 or below -5000, whole and in their order; the
    fixed message is printed when there is no such row, and the rows
    themselves otherwise. *)
Theorem outlier_filter_rows (s s' : state) (d : DataFrame) :
  df s = Some d ->
  well_formed d ->
  check_outliers s = Some s' ->
  exists amount found,
    getitem d "交易金额" = Some amount /\
    abnormal s' = Some found /\
    well_formed found /\
    rows found =
      map fst (filter (fun rc => flagged_cell (snd rc))
                      (combine (rows d) (values amount))) /\
    stdout s' = stdout s ++
      [Text "检查交易金额异常值（>10000或<-5000）：";
       match rows found with
       | [] => Text no_outlier_message
       | _ :: _ => Frame found
       end].
Proof.
  intros Hd Hwf H.
  destruct (check_outliers_spec s s' d Hd H)
    as (amount & found & Ha & Hf & Hab & _ & Hout).
  exists amount, found.
  split; [exact Ha|]. split; [exact Hab|].
  split; [subst found; now apply getitem_mask_well_formed|].
  assert (Hrows : rows found =
                  map fst (filter (fun rc => flagged_cell (snd rc))
                                  (combine (rows d) (values amount)))).
  { subst found. rewrite getitem_mask_rows by exact Hwf. apply select_by. }
  split; [exact Hrows|].
  rewrite Hout. do 3 f_equal.
  assert (Hc : columns found <> []).
  { subst found. simpl. unfold getitem in Ha.
    destruct (columns d); [discriminate Ha|discriminate]. }
  pose proof (empty_rows found Hc) as He.
  destruct (rows found) as [|r rs].
  - now rewrite (proj2 He eq_refl).
  - destruct (empty found); [|reflexivity].
    destruct He as [He _]. discriminate (He eq_refl).
Qed.

(** Three amounts, of which the first and the last are out of bounds. *)
Lemma outlier_filter_rows_example :
  exists s s' d found,
    df s = Some d /\ check_outliers s = Some s' /\
    abnormal s' = Some found /\
    rows d = [[Int 20000]; [Int 5]; [Int (-6000)]] /\
    rows found = [[Int 20000]; [Int (-6000)]] /\
    stdout s' = [Text "检查交易金额异常值（>10000或<-5000）："; Frame found].
Proof.
  pose (d := {| index := [0; 1; 2];
                columns := [("交易金额", Plain [Int 20000; Int 5; Int (-6000)])] |}).
  pose (s := set_df d init).
  assert (Hwf : well_formed d) by (repeat constructor).
  let r := eval vm_compute in (check_outliers s) in
  match r with
  | Some ?s' =>
      assert (H : check_outliers s = Some s') by reflexivity;
      destruct (outlier_filter_rows s s' d eq_refl Hwf H)
        as (amount & found & Ha & Hf & _ & Hrows & Hout);
      exists s, s', d, found
  end.
  injection Ha as <-.
  split; [reflexivity|]. split; [exact H|]. split; [exact Hf|].
  split; [reflexivity|]. split; [exact Hrows|].
  rewrite Hout, Hrows. reflexivity.
Defined.

(** ** When cleaning raises *)







(** ** What the duplicate count counts *)

Lemma duplicated_from_length (seen rs : list (list cell)) :
  List.length (duplicated_from seen rs) = List.length rs.
Proof.
  revert seen. induction rs as [|r rs IH]; intros seen; simpl; [reflexivity|].
  now rewrite IH.
Qed.

Lemma duplicated_from_nth (rs seen : list (list cell)) (i : nat) (b : bool) :
  nth_error (duplicated_from seen rs) i = Some b ->
  (b = true <->
   exists r, nth_error rs i = Some r /\
             (In r seen \/ exists j, (j < i)%nat /\ nth_error rs j = Some r)).
Proof.
  revert seen i. induction rs as [|r0 rest IH]; intros seen i H.
  - destruct i; discriminate H.
  - destruct i as [|i]; cbn [duplicated_from nth_error] in H |- *.
    + injection H as <-. rewrite seen_before. split.
      * intros Hin. exists r0. split; [reflexivity|now left].
      * intros (r & Hr & [Hin|(j & Hj & _)]); [|lia].
        now injection Hr as <-.
    + rewrite (IH (r0 :: seen) i H). split.
      * intros (r & Hr & [[Heq|Hin]|(j & Hj & Hjr)]); exists r;
          (split; [exact Hr|]).
        -- right. exists 0%nat. split; [lia|]. simpl. now rewrite Heq.
        -- now left.
        -- right. exists (S j). split; [lia|exact Hjr].
      * intros (r & Hr & [Hin|(j & Hj & Hjr)]); exists r;
          (split; [exact Hr|]).
        -- left. now right.
        -- destruct j as [|j].
           ++ left. left. simpl in Hjr. congruence.
           ++ right. exists j. split; [lia|exact Hjr].
Qed.

(** X5: the duplicate check (lines 43-45).  [duplicate_rows] is the
    number of marked rows, where a row is marked exactly when an earlier
    row of the table has the same cells in every column: the first
    occurrence of a row is never counted, each later copy is.  The table
    is not changed. *)
Theorem duplicate_rows_counts_later_copies (s s' : state) (d : DataFrame) :
  df s = Some d ->
  check_duplicates s = Some s' ->
  exists marks : list bool,
    duplicate_rows s' = Some (count_true marks) /\
    List.length marks = List.length (rows d) /\
    (forall (i : nat) (b : bool),
        nth_error marks i = Some b ->
        (b = true <->
         exists j r, (j < i)%nat /\
                     nth_error (rows d) j = Some r /\
                     nth_error (rows d) i = Some r)) /\
    df s' = Some d.
Proof.
  intros Hd H.
  destruct (check_duplicates_df s s' H) as (Hdf & d0 & Hd0 & Hn).
  assert (d0 = d) by congruence. subst d0.
  exists (duplicated d).
  split; [exact Hn|].
  split; [apply duplicated_from_length|].
  split; [|congruence].
  intros i b Hb. unfold duplicated in Hb.
  rewrite (duplicated_from_nth _ _ _ _ Hb). split.
  - intros (r & Hr & [[]|(j & Hj & Hjr)]). now exists j, r.
  - intros (j & r & Hj & Hjr & Hr). exists r. split; [exact Hr|].
    right. now exists j.
Qed.

(** Four rows, the third and fourth repeating the first: two duplicates. *)
Lemma duplicate_rows_counts_example :
  exists s s' d,
    df s = Some d /\ check_duplicates s = Some s' /\
    rows d = [[Int 1; Str "a"]; [Int 2; Str "b"]; [Int 1; Str "a"]; [Int 1; Str "a"]] /\
    duplicate_rows s' = Some 2 /\
    exists marks : list bool,
      duplicate_rows s' = Some (count_true marks) /\
      List.length marks = List.length (rows d) /\
      (forall (i : nat) (b : bool),
          nth_error marks i = Some b ->
          (b = true <->
           exists j r, (j < i)%nat /\
                       nth_error (rows d) j = Some r /\
                       nth_error (rows d) i = Some r)) /\
      df s' = Some d.
Proof.
  pose (d := {| index := [0; 1; 2; 3];
                columns := [("x", Plain [Int 1; Int 2; Int 1; Int 1]);
                            ("y", Plain [Str "a"; Str "b"; Str "a"; Str "a"])] |}).
  pose (s := set_df d init).
  let r := eval vm_compute in (check_duplicates s) in
  match r with
  | Some ?s' =>
      exists s, s', d;
      assert (H : check_duplicates s = Some s') by reflexivity;
      split; [reflexivity|]; split; [exact H|]; split; [reflexivity|];
      split; [reflexivity|];
      exact (duplicate_rows_counts_later_copies s s' d eq_refl H)
  end.
Defined.

(** ** Building the table *)

Lemma range_length (lo hi : Z) : List.length (range lo hi) = Z.to_nat (hi - lo).
Proof. unfold range. now rewrite length_map, length_seq. Qed.

Lemma range_nth (lo hi : Z) (i : nat) :
  (i < Z.to_nat (hi - lo))%nat ->
  nth_error (range lo hi) i = Some (lo + Z.of_nat i).
Proof.
  intros Hi. unfold range.
  rewrite nth_error_map, nth_error_nth' with (d := 0%nat)
    by (now rewrite length_seq).
  now rewrite seq_nth.
Qed.

(** X1: [pd.DataFrame(data)] (line 32).  When the constructor succeeds
    the table has the dict's keys as column names, in the dict's order,
    each column holding the given cells; the rows are labelled
    0, 1, 2, ... and every column has one cell per label. *)
Theorem new_DataFrame_well_formed (d : list (string * list cell)) (t : DataFrame) :
  new_DataFrame d = Some t ->
  well_formed t /\
  map fst (columns t) = map fst d /\
  cells_of (columns t) = map snd d /\
  (forall i : nat, (i < List.length (index t))%nat ->
                   nth_error (index t) i = Some (Z.of_nat i)) /\
  (forall xs, In xs (map snd d) -> List.length xs = List.length (index t)).
Proof.
  unfold new_DataFrame. destruct d as [|[k xs] rest].
  - intros H. injection H as <-. repeat split; try constructor.
    + intros i Hi. simpl in Hi. lia.
    + intros xs [].
  - set (d := (k, xs) :: rest).
    destruct (forallb (same_length (List.length xs)) d) eqn:E; [|discriminate].
    intros H. injection H as <-.
    assert (Hlen : List.length (range 0 (Z.of_nat (List.length xs))) =
                   List.length xs).
    { rewrite range_length. lia. }
    assert (Hall : forall ys, In ys (map snd d) ->
                              List.length ys = List.length xs).
    { intros ys Hys. apply in_map_iff in Hys. destruct Hys as (kv & <- & Hkv).
      rewrite forallb_forall in E. specialize (E kv Hkv).
      unfold same_length in E. now apply Nat.eqb_eq in E. }
    cbn [index columns]. rewrite Hlen.
    split; [|split; [|split; [|split]]].
    + unfold well_formed. cbn [index columns]. rewrite Hlen.
      apply Forall_forall. intros kc Hkc.
      change ((k, Plain xs) :: map (fun kv => (fst kv, Plain (snd kv))) rest)
        with (map (fun kv : string * list cell => (fst kv, Plain (snd kv))) d)
        in Hkc.
      apply in_map_iff in Hkc. destruct Hkc as (kv & <- & Hkv). simpl.
      apply Hall. now apply in_map.
    + unfold d. cbn [map fst]. f_equal. rewrite map_map. reflexivity.
    + unfold cells_of, d. cbn [map snd values]. f_equal.
      rewrite map_map. reflexivity.
    + intros i Hi. rewrite range_nth by lia. f_equal.
    + exact Hall.
Qed.

(** Two columns of three cells. *)
Lemma new_DataFrame_well_formed_example :
  exists t,
    new_DataFrame [("a", [Int 1; Int 2; Int 3]); ("b", [Str "x"; NaN; Str "z"])]
      = Some t /\
    index t = [0; 1; 2] /\
    map fst (columns t) = ["a"; "b"] /\
    rows t = [[Int 1; Str "x"]; [Int 2; NaN]; [Int 3; Str "z"]] /\
    well_formed t.
Proof.
  eexists. split; [reflexivity|].
  split; [reflexivity|]. split; [reflexivity|]. split; [reflexivity|].
  match goal with
  | |- well_formed ?t =>
      exact (proj1 (new_DataFrame_well_formed
                      [("a", [Int 1; Int 2; Int 3]); ("b", [Str "x"; NaN; Str "z"])]
                      t eq_refl))
  end.
Defined.


(** ** Totals of counts and sums *)

Lemma fold_add_acc (zs : list Z) (a : Z) : fold_left Z.add zs a = a + Zsum zs.
Proof.
  unfold Zsum. revert a. induction zs as [|z zs IH]; intros a; simpl; [lia|].
  rewrite IH, (IH z). lia.
Qed.

Lemma Zsum_cons (z : Z) (zs : list Z) : Zsum (z :: zs) = z + Zsum zs.
Proof. unfold Zsum at 1. simpl. now rewrite fold_add_acc. Qed.


Lemma Zsum_perm (xs ys : list Z) : Permutation xs ys -> Zsum xs = Zsum ys.
Proof.
  induction 1; rewrite ?Zsum_cons; lia.
Qed.

Lemma count_cell_cons (k x : cell) (xs : list cell) :
  count_cell k (x :: xs) = (if cell_eqb k x then 1 else 0) + count_cell k xs.
Proof. unfold count_cell. cbn [map]. apply count_true_cons. Qed.

Lemma count_cell_nonneg (k : cell) (xs : list cell) : 0 <= count_cell k xs.
Proof. apply count_true_nonneg. Qed.

Lemma count_cell_pos (k : cell) (xs : list cell) : In k xs -> 0 < count_cell k xs.
Proof.
  induction xs as [|x xs IH]; [intros []|].
  intros [->|Hin]; rewrite count_cell_cons.
  - rewrite cell_eqb_refl. pose proof (count_cell_nonneg k xs). lia.
  - specialize (IH Hin). destruct (cell_eqb k x); lia.
Qed.

(** Over distinct keys, exactly one key equals a cell that is among them. *)
Lemma hits_among (x : cell) (keys : list cell) :
  NoDup keys ->
  Zsum (map (fun k => if cell_eqb k x then 1 else 0) keys) =
  if existsb (cell_eqb x) keys then 1 else 0.
Proof.
  induction 1 as [|k keys Hk Hnd IH]; [reflexivity|].
  cbn [map existsb]. rewrite Zsum_cons, IH.
  destruct (cell_eqb k x) eqn:E.
  - apply cell_eqb_eq in E. subst k. rewrite cell_eqb_refl. cbn [orb].
    destruct (existsb (cell_eqb x) keys) eqn:Ex; [|reflexivity].
    apply existsb_exists in Ex. destruct Ex as (y & Hy & Hxy).
    apply cell_eqb_eq in Hxy. subst y. contradiction.
  - assert (E' : cell_eqb x k = false).
    { destruct (cell_eqb x k) eqn:E'; [|reflexivity].
      apply cell_eqb_eq in E'. subst k. now rewrite cell_eqb_refl in E. }
    rewrite E'. reflexivity.
Qed.

Lemma counts_total (keys xs : list cell) :
  NoDup keys ->
  ~ In NaN keys ->
  (forall x, In x xs -> x <> NaN -> In x keys) ->
  Zsum (map (fun k => count_cell k xs) keys) =
  Z.of_nat (List.length (filter notnull xs)).
Proof.
  intros Hnd Hnan. induction xs as [|x xs IH]; intros Hcover.
  - simpl. clear. induction keys as [|k keys IHk]; [reflexivity|].
    cbn [map]. rewrite Zsum_cons, IHk. reflexivity.
  - assert (Hsplit : Zsum (map (fun k => count_cell k (x :: xs)) keys) =
                     Zsum (map (fun k => if cell_eqb k x then 1 else 0) keys) +
                     Zsum (map (fun k => count_cell k xs) keys)).
    { clear. induction keys as [|k keys IHk]; [reflexivity|].
      cbn [map]. rewrite !Zsum_cons, IHk, count_cell_cons. lia. }
    rewrite Hsplit, IH, (hits_among x keys Hnd)
      by (intros y Hy; apply Hcover; now right).
    cbn [filter]. destruct x as [z|t|]; cbn [notnull isnull negb].
    + assert (Hx : existsb (cell_eqb (Int z)) keys = true).
      { apply existsb_exists. exists (Int z). split; [|apply cell_eqb_refl].
        apply Hcover; [now left|discriminate]. }
      rewrite Hx. cbn [List.length]. lia.
    + assert (Hx : existsb (cell_eqb (Str t)) keys = true).
      { apply existsb_exists. exists (Str t). split; [|apply cell_eqb_refl].
        apply Hcover; [now left|discriminate]. }
      rewrite Hx. cbn [List.length]. lia.
    + assert (Hx : existsb (cell_eqb NaN) keys = false).
      { destruct (existsb (cell_eqb NaN) keys) eqn:Ex; [|reflexivity].
        apply existsb_exists in Ex. destruct Ex as (y & Hy & Hxy).
        apply cell_eqb_eq in Hxy. subst y. contradiction. }
      rewrite Hx. lia.
Qed.

(** X7: counting a retyped column (lines 61 and 77).  The counts listed
    for a column that was retyped as categorical add up to the number of
    its non-missing cells; there is one entry per distinct non-missing
    value, and no entry has count zero. *)
Theorem value_counts_total (xs : list cell) :
  Zsum (map snd (value_counts (astype_category (Plain xs)))) =
    Z.of_nat (List.length (filter notnull xs)) /\
  List.length (value_counts (astype_category (Plain xs))) =
    List.length (dedup (filter notnull xs)) /\
  Forall (fun kn => 0 < snd kn) (value_counts (astype_category (Plain xs))).
Proof.
  assert (Hk : counted_keys (astype_category (Plain xs)) = categories_of xs)
    by reflexivity.
  pose proof (astype_category_values (Plain xs)) as Hv. cbn [values] in Hv.
  set (c := astype_category (Plain xs)) in *.
  pose proof (isort_perm by_count_desc
                (map (fun k => (k, count_cell k (values c))) (counted_keys c)))
    as Hp.
  fold (value_counts c) in Hp.
  split; [|split].
  - rewrite <- (Zsum_perm _ _ (Permutation_map snd Hp)).
    rewrite map_map. cbn [snd]. rewrite Hk, Hv.
    apply counts_total.
    + apply categories_of_NoDup.
    + intros H. apply categories_of_In in H. destruct H as [_ H]. discriminate H.
    + intros x Hx Hn. apply categories_of_In. split; [exact Hx|].
      destruct x; try reflexivity. congruence.
  - rewrite <- (Permutation_length Hp), length_map, Hk.
    unfold categories_of.
    destruct (forallb is_str _ || forallb is_int _); [|reflexivity].
    symmetry. apply Permutation_length, isort_perm.
  - eapply Permutation_Forall; [exact Hp|].
    apply Forall_map, Forall_forall. intros k Hkin. cbn [snd].
    rewrite Hk in Hkin. apply categories_of_In in Hkin.
    rewrite Hv. apply count_cell_pos. tauto.
Qed.


Lemma ints_length (xs : list cell) :
  existsb is_str xs = false ->
  List.length (ints xs) = List.length (filter notnull xs).
Proof.
  induction xs as [|x xs IH]; [reflexivity|].
  cbn [existsb]. intros H. apply orb_false_iff in H. destruct H as [Hx Hxs].
  unfold ints in *. cbn [flat_map filter]. rewrite length_app, (IH Hxs).
  destruct x; try discriminate Hx; reflexivity.
Qed.














(** ** Categories and codes *)

(** X9: [astype('category')] (lines 60-61).  The categories of a retyped
    column are its distinct non-missing cells; every row has a code; the
    code of a missing cell is -1 and the code of any other cell is the
    position of that cell among the categories. *)
Theorem category_codes (xs : list cell) :
  exists cats codes,
    astype_category (Plain xs) = Categorical cats codes /\
    NoDup cats /\
    (forall x, In x cats <-> In x xs /\ x <> NaN) /\
    List.length codes = List.length xs /\
    (forall (i : nat) (x : cell),
        nth_error xs i = Some x ->
        exists k, nth_error codes i = Some k /\
                  (x = NaN -> k = -1) /\
                  (x <> NaN ->
                   0 <= k < Z.of_nat (List.length cats) /\
                   nth_error cats (Z.to_nat k) = Some x)).
Proof.
  exists (categories_of xs), (map (encode (categories_of xs)) xs).
  split; [reflexivity|].
  split; [apply categories_of_NoDup|].
  assert (Hin : forall x, In x (categories_of xs) <-> In x xs /\ x <> NaN).
  { intros x. rewrite categories_of_In. unfold notnull.
    destruct x; simpl; intuition congruence. }
  split; [exact Hin|].
  split; [apply length_map|].
  intros i x Hx. exists (encode (categories_of xs) x).
  split; [now rewrite nth_error_map, Hx|].
  split.
  - intros ->. apply index_of_absent. intros H. apply Hin in H. tauto.
  - intros Hn.
    assert (Hc : In x (categories_of xs)).
    { apply Hin. split; [|exact Hn]. eapply nth_error_In, Hx. }
    destruct (index_of_found x _ 0 Hc) as [Hle Hnth].
    rewrite Z.sub_0_r in Hnth. fold (encode (categories_of xs) x) in Hle, Hnth.
    split; [|exact Hnth]. split; [exact Hle|].
    assert (Hlt : (Z.to_nat (encode (categories_of xs) x) <
                   List.length (categories_of xs))%nat).
    { apply nth_error_Some. congruence. }
    lia.
Qed.

Lemma cell_leb_total (a b : cell) : cell_leb a b = true \/ cell_leb b a = true.
Proof.
  destruct a as [x|s|], b as [y|t|]; simpl; auto.
  - rewrite !Z.leb_le. lia.
  - apply String.leb_total.
Qed.

Lemma strs_of (l : list cell) :
  forallb is_str l = true -> exists names, l = map Str names.
Proof.
  induction l as [|x l IH]; intros H.
  - now exists [].
  - cbn [forallb] in H. apply andb_true_iff in H. destruct H as [Hx Hl].
    destruct (IH Hl) as (names & ->).
    destruct x as [|s|]; try discriminate Hx. now exists (s :: names).
Qed.

Lemma sorted_strs (names : list string) :
  Sorted (fun a b => cell_leb a b = true) (map Str names) ->
  Sorted (fun s t => String.leb s t = true) names.
Proof.
  induction names as [|s names IH]; intros H; [constructor|].
  inversion H as [|? ? Hs Hh]; subst. constructor; [now apply IH|].
  destruct names as [|t names]; [constructor|].
  inversion Hh; subst. now constructor.
Qed.

(** X10: the categories of a column of str labels (lines 60-61) are
    str, pairwise different, and listed in ascending order of their code
    points, whatever the order of the rows. *)
Theorem categories_sorted (xs : list cell) :
  forallb (fun c => negb (is_int c)) xs = true ->
  exists names : list string,
    categories_of xs = map Str names /\
    NoDup names /\
    Sorted (fun s t => String.leb s t = true) names /\
    (forall s, In s names <-> In (Str s) xs).
Proof.
  intros Hno.
  assert (Hstr : forallb is_str (dedup (filter notnull xs)) = true).
  { apply forallb_forall. intros x Hx.
    apply dedup_In, filter_In in Hx. destruct Hx as [Hx Hn].
    rewrite forallb_forall in Hno. specialize (Hno x Hx).
    destruct x; try discriminate; reflexivity. }
  assert (Hcat : categories_of xs = isort cell_leb (dedup (filter notnull xs))).
  { unfold categories_of. now rewrite Hstr. }
  assert (Hall : forallb is_str (categories_of xs) = true).
  { apply forallb_forall. intros x Hx. rewrite Hcat in Hx.
    apply isort_In in Hx. rewrite forallb_forall in Hstr. now apply Hstr. }
  destruct (strs_of _ Hall) as (names & Hnames).
  exists names. split; [exact Hnames|].
  split; [|split].
  - pose proof (categories_of_NoDup xs) as Hnd. rewrite Hnames in Hnd.
    eapply NoDup_map_inv, Hnd.
  - apply sorted_strs. rewrite <- Hnames, Hcat.
    apply isort_sorted, cell_leb_total.
  - intros s. pose proof (categories_of_In (Str s) xs) as Hc.
    rewrite Hnames, in_map_iff in Hc. split.
    + intros H. apply Hc. now exists s.
    + intros H. destruct (proj2 Hc (conj H eq_refl)) as (t & Ht & Hin).
      now injection Ht as <-.
Qed.

Lemma map_Str_inj (a b : list string) : map Str a = map Str b -> a = b.
Proof.
  revert b. induction a as [|x a IH]; intros [|y b] H; try discriminate H.
  - reflexivity.
  - injection H as -> H. f_equal. now apply IH.
Qed.

(** Rows in arbitrary order, one of them without a label. *)
Lemma categories_sorted_example :
  exists names : list string,
    categories_of [Str "网银"; Str "ATM"; NaN; Str "柜台"; Str "ATM"] = map Str names /\
    names = ["ATM"; "柜台"; "网银"] /\
    Sorted (fun s t => String.leb s t = true) names.
Proof.
  destruct (categories_sorted [Str "网银"; Str "ATM"; NaN; Str "柜台"; Str "ATM"] eq_refl)
    as (names & Hn & _ & Hs & _).
  exists names. split; [exact Hn|]. split; [|exact Hs].
  apply map_Str_inj. rewrite <- Hn. reflexivity.
Defined.

(** ** The printed reports *)

Lemma null_notnull_count (xs : list cell) :
  count_true (map notnull xs) + count_true (map isnull xs) =
  Z.of_nat (List.length xs).
Proof.
  induction xs as [|x xs IH]; [reflexivity|].
  cbn [map List.length]. rewrite !count_true_cons.
  destruct x; cbn [notnull isnull negb]; lia.
Qed.

(** X11: the two reports on missing values (lines 36 and 41) agree.  On
    a well-formed table, the non-null count that [info] prints for a
    column and the null count that [isnull().sum()] prints for the same
    column add up to the number of rows. *)
Theorem info_and_isnull_agree (t : DataFrame) :
  well_formed t ->
  List.length (info t) = List.length (isnull_sum t) /\
  forall (i : nat) (name : string) (nonnull : Z) (ty : dtype),
    nth_error (info t) i = Some (name, nonnull, ty) ->
    exists nulls,
      nth_error (isnull_sum t) i = Some (name, nulls) /\
      0 <= nulls /\ 0 <= nonnull /\
      nonnull + nulls = Z.of_nat (List.length (index t)).
Proof.
  intros Hwf. unfold info, isnull_sum.
  split; [now rewrite !length_map|].
  intros i name nonnull ty H.
  rewrite nth_error_map in H. rewrite nth_error_map.
  destruct (nth_error (columns t) i) as [kc|] eqn:E; [|discriminate H].
  cbn [option_map] in *. injection H as <- <- <-.
  eexists. split; [reflexivity|].
  split; [apply count_true_nonneg|]. split; [apply count_true_nonneg|].
  rewrite null_notnull_count. f_equal.
  unfold well_formed in Hwf. rewrite Forall_forall in Hwf.
  apply Hwf. eapply nth_error_In, E.
Qed.

(** A column with one missing cell out of three. *)
Lemma info_and_isnull_agree_example :
  exists t,
    info t = [("a", 2, object)] /\ isnull_sum t = [("a", 1)] /\
    exists nulls,
      nth_error (isnull_sum t) 0 = Some ("a", nulls) /\
      0 <= nulls /\ 0 <= 2 /\ 2 + nulls = Z.of_nat (List.length (index t)).
Proof.
  pose (t := {| index := [0; 1; 2];
                columns := [("a", Plain [Str "x"; NaN; Str "y"])] |}).
  assert (Hwf : well_formed t) by (repeat constructor).
  exists t. split; [reflexivity|]. split; [reflexivity|].
  exact (proj2 (info_and_isnull_agree t Hwf) 0%nat "a" 2 object eq_refl).
Defined.

Lemma select_repeat_true {A : Type} (n : nat) (xs : list A) :
  select (repeat true n) xs = firstn n xs.
Proof.
  revert xs. induction n as [|n IH]; intros xs; [reflexivity|].
  destruct xs as [|x xs]; [reflexivity|].
  cbn [repeat firstn]. rewrite select_cons. now rewrite IH.
Qed.

(** X12: the preview (line 34).  On a well-formed table [head] is the
    first five rows with their labels, and the whole table when it has
    five rows or fewer; it is never an error. *)
Theorem head_first_rows (t : DataFrame) :
  well_formed t ->
  well_formed (head t) /\
  index (head t) = firstn 5 (index t) /\
  rows (head t) = firstn 5 (rows t) /\
  map fst (columns (head t)) = map fst (columns t) /\
  ((List.length (index t) <= 5)%nat -> rows (head t) = rows t).
Proof.
  intros Hwf. unfold head.
  split; [now apply getitem_mask_well_formed|].
  split; [apply select_repeat_true|].
  assert (Hr : rows (getitem_mask t (repeat true 5)) = firstn 5 (rows t)).
  { rewrite getitem_mask_rows by exact Hwf. apply select_repeat_true. }
  split; [exact Hr|].
  split.
  - simpl. now rewrite map_map.
  - intros Hle. rewrite Hr. apply firstn_all2. now rewrite rows_length.
Qed.

(** A table of two rows is previewed whole. *)
Lemma head_first_rows_example :
  exists t,
    rows t = [[Int 1]; [Int 2]] /\ rows (head t) = [[Int 1]; [Int 2]] /\
    index (head t) = [0; 1].
Proof.
  pose (t := {| index := [0; 1]; columns := [("a", Plain [Int 1; Int 2])] |}).
  assert (Hwf : well_formed t) by (repeat constructor).
  destruct (head_first_rows t Hwf) as (_ & Hi & _ & _ & Hall).
  exists t. split; [reflexivity|].
  split; [rewrite Hall; [reflexivity|simpl; lia]|].
  rewrite Hi. reflexivity.
Defined.

(** ** From the analysis to the charts *)







(** ** What cleaning keeps *)

Lemma step2_inv (s s' : state) :
  step2 s = Some s' ->
  exists s1 s2 s3 s4,
    check_missing (print (Text "=== 第2步：数据清洗 ===") s) = Some s1 /\
    check_duplicates s1 = Some s2 /\
    check_outliers s2 = Some s3 /\
    retype s3 = Some s4 /\
    s' = goto Analyze s4.
Proof.
  unfold step2. intros H.
  apply bind_Some in H. destruct H as (s1 & H1 & H).
  apply bind_Some in H. destruct H as (s2 & H2 & H).
  apply bind_Some in H. destruct H as (s3 & H3 & H).
  apply bind_Some in H. destruct H as (s4 & H4 & H).
  injection H as <-. now exists s1, s2, s3, s4.
Qed.

Lemma well_formed_cells (t : DataFrame) :
  well_formed t <->
  Forall (fun v => List.length v = List.length (index t)) (cells_of (columns t)).
Proof. unfold well_formed, cells_of. now rewrite Forall_map. Qed.

Lemma setitem_retyped_well_formed (t : DataFrame) (name : string) (c : column) :
  getitem t name = Some c ->
  well_formed t ->
  well_formed (setitem t name (astype_category c)) /\
  shape (setitem t name (astype_category c)) = shape t.
Proof.
  intros Hc Hwf.
  destruct (assign_same_values name (astype_category c) c (columns t) Hc
              (astype_category_values c)) as [Hn Hv].
  split.
  - apply well_formed_cells. unfold cells_of. cbn [columns index setitem].
    rewrite Hv. now apply well_formed_cells.
  - unfold shape. cbn [columns index setitem].
    now rewrite <- (length_map fst), Hn, length_map.
Qed.

Lemma count_true_le (bs : list bool) : count_true bs <= Z.of_nat (List.length bs).
Proof.
  induction bs as [|b bs IH]; [reflexivity|].
  rewrite count_true_cons. cbn [List.length]. destruct b; lia.
Qed.

Lemma duplicated_bound (t : DataFrame) :
  0 <= count_true (duplicated t) /\
  (index t <> [] -> count_true (duplicated t) < Z.of_nat (List.length (index t))).
Proof.
  split; [apply count_true_nonneg|].
  intros Hne. rewrite <- rows_length. unfold duplicated.
  destruct (rows t) as [|r rs] eqn:E.
  - exfalso. apply Hne. apply length_zero_iff_nil.
    now rewrite <- rows_length, E.
  - cbn [duplicated_from existsb List.length]. rewrite count_true_cons.
    pose proof (count_true_le (duplicated_from [r] rs)) as Hle.
    rewrite duplicated_from_length in Hle. lia.
Qed.

Lemma check_outliers_duplicate_rows (s s' : state) :
  check_outliers s = Some s' -> duplicate_rows s' = duplicate_rows s.
Proof.
  unfold check_outliers. cbn [df print]. intros H.
  apply bind_Some in H. destruct H as (d & Hd & H).
  apply bind_Some in H. destruct H as (a & Ha & H).
  apply bind_Some in H. destruct H as (high & Hh & H).
  apply bind_Some in H. destruct H as (a' & Ha' & H).
  apply bind_Some in H. destruct H as (low & Hl & H).
  destruct (negb _); injection H as <-; reflexivity.
Qed.

Lemma retype_duplicate_rows (s s' : state) :
  retype s = Some s' -> duplicate_rows s' = duplicate_rows s.
Proof.
  unfold retype. intros H.
  apply bind_Some in H. destruct H as (d & Hd & H).
  apply bind_Some in H. destruct H as (kind & Hk & H).
  apply bind_Some in H. destruct H as (channel & Hc & H).
  now injection H as <-.
Qed.

(** X14: invariants of step 2 (lines 38-63).  Cleaning a well-formed
    table leaves [df] well formed and of the same shape; [abnormal] is a
    well-formed table with the same columns and no more rows than [df];
    [duplicate_rows] is at least 0 and, unless the table is empty, less
    than the number of rows. *)
Theorem cleaning_invariants (s s' : state) (d : DataFrame) :
  df s = Some d ->
  well_formed d ->
  step2 s = Some s' ->
  exists d' found n,
    df s' = Some d' /\ well_formed d' /\ shape d' = shape d /\
    abnormal s' = Some found /\ well_formed found /\
    map fst (columns found) = map fst (columns d) /\
    (List.length (index found) <= List.length (index d))%nat /\
    duplicate_rows s' = Some n /\
    0 <= n /\ (index d <> [] -> n < Z.of_nat (List.length (index d))).
Proof.
  intros Hd Hwf H.
  destruct (step2_inv s s' H) as (s1 & s2 & s3 & s4 & H1 & H2 & H3 & H4 & ->).
  destruct (check_missing_df _ _ H1) as (Hd1 & _). cbn [df print] in Hd1.
  destruct (check_duplicates_df _ _ H2) as (Hd2 & d0 & Hd0 & Hn).
  assert (d0 = d) by congruence. subst d0.
  assert (Hs2 : df s2 = Some d) by congruence.
  destruct (check_outliers_spec _ _ d Hs2 H3)
    as (amount & found & Ha & Hf & Hab & Hd3 & _).
  destruct (retype_df _ _ d Hd3 H4) as (kind & channel & Hk & Hc & Hd4).
  destruct (setitem_retyped_well_formed d _ kind Hk Hwf) as [Hwf1 Hsh1].
  destruct (setitem_retyped_well_formed _ _ channel Hc Hwf1) as [Hwf2 Hsh2].
  eexists. exists found, (count_true (duplicated d)).
  cbn [df abnormal duplicate_rows goto].
  split; [exact Hd4|]. split; [exact Hwf2|]. split; [congruence|].
  split; [rewrite (retype_abnormal _ _ H4); exact Hab|].
  split; [subst found; now apply getitem_mask_well_formed|].
  split; [subst found; simpl; now rewrite map_map|].
  split; [subst found; apply select_length_le|].
  split.
  - rewrite (retype_duplicate_rows _ _ H4), (check_outliers_duplicate_rows _ _ H3).
    exact Hn.
  - apply duplicated_bound.
Qed.

(** The script's own table, cleaned. *)
Lemma cleaning_invariants_example :
  exists s1 d s2,
    step1 init = Some s1 /\ df s1 = Some d /\ step2 s1 = Some s2 /\
    exists d' found n,
      df s2 = Some d' /\ well_formed d' /\ shape d' = shape d /\
      abnormal s2 = Some found /\ well_formed found /\
      map fst (columns found) = map fst (columns d) /\
      (List.length (index found) <= List.length (index d))%nat /\
      duplicate_rows s2 = Some n /\
      0 <= n /\ (index d <> [] -> n < Z.of_nat (List.length (index d))).
Proof.
  let r1 := eval vm_compute in (step1 init) in
  match r1 with
  | Some ?s1 =>
      let rd := eval vm_compute in (df s1) in
      let r2 := eval vm_compute in (step2 s1) in
      match rd with
      | Some ?d =>
          match r2 with
          | Some ?s2 =>
              exists s1, d, s2;
              assert (Hwf : well_formed d) by (repeat constructor);
              split; [vm_compute; reflexivity|];
              split; [reflexivity|];
              split; [vm_compute; reflexivity|];
              apply (cleaning_invariants s1 s2 d);
              [reflexivity | exact Hwf | vm_compute; reflexivity]
          end
      end
  end.
Defined.

(** ** Descriptive statistics *)








(** ** Assigning a column *)

Lemma assign_names (name : string) (c : column) (cols : list (string * column)) :
  map fst (assign name c cols) =
  match lookup name cols with
  | Some _ => map fst cols
  | None => map fst cols ++ [name]
  end.
Proof.
  induction cols as [|[k c0] rest IH]; [reflexivity|].
  cbn [assign lookup]. destruct (String.eqb k name) eqn:E; [reflexivity|].
  cbn [map fst]. rewrite IH. now destruct (lookup name rest).
Qed.

(** X16: [df[name] = column] (lines 60-61).  The assigned column is what
    [df[name]] then returns; every other column is as before; an existing
    name keeps its place among the columns and a new name is added at
    the end; the row labels are untouched. *)
Theorem setitem_getitem (t : DataFrame) (name : string) (c : column) :
  getitem (setitem t name c) name = Some c /\
  (forall other, other <> name ->
                 getitem (setitem t name c) other = getitem t other) /\
  map fst (columns (setitem t name c)) =
    match getitem t name with
    | Some _ => map fst (columns t)
    | None => map fst (columns t) ++ [name]
    end /\
  index (setitem t name c) = index t.
Proof.
  unfold getitem. cbn [columns index setitem].
  split; [apply lookup_assign_same|].
  split; [intros other H; now apply lookup_assign_other|].
  split; [apply assign_names|reflexivity].
Qed.

(** ** The bounds of the outlier rule *)

Lemma or_mask_nth (high low : list bool) (i : nat) (h l : bool) :
  nth_error high i = Some h -> nth_error low i = Some l ->
  nth_error (or_mask high low) i = Some (h || l).
Proof.
  revert low i. induction high as [|h0 high IH]; intros low i Hh Hl.
  - destruct i; discriminate Hh.
  - destruct low as [|l0 low]; [destruct i; discriminate Hl|].
    destruct i as [|i]; cbn [nth_error] in *.
    + injection Hh as ->. injection Hl as ->. reflexivity.
    + unfold or_mask. cbn [combine map nth_error]. now apply IH.
Qed.

Lemma traverse_nth {A B : Type} (f : A -> option B) (xs : list A) (ys : list B)
      (i : nat) (x : A) :
  traverse f xs = Some ys -> nth_error xs i = Some x ->
  exists y, f x = Some y /\ nth_error ys i = Some y.
Proof.
  revert ys i. induction xs as [|x0 xs IH]; intros ys i H Hx.
  - destruct i; discriminate Hx.
  - cbn [traverse] in H.
    apply bind_Some in H. destruct H as (y0 & Hy0 & H).
    apply bind_Some in H. destruct H as (ys' & Hys & H).
    injection H as <-.
    destruct i as [|i]; cbn [nth_error] in *.
    + injection Hx as ->. now exists y0.
    + now apply IH.
Qed.

(** X17: the mask of line 50.  When both comparisons succeed, the row of
    an int amount [z] is flagged exactly when [z > 10000] or [z < -5000],
    which is also the rule as the comment of line 48 words it (absolute
    value above 10000, or below -5000); both bounds are exclusive, and a
    row whose amount is missing is never flagged. *)
Theorem outlier_mask_bounds (amount : column) (high low : list bool) :
  gt amount 10000 = Some high ->
  lt amount (-5000) = Some low ->
  List.length (or_mask high low) = List.length (values amount) /\
  (forall (i : nat) (z : Z),
      nth_error (values amount) i = Some (Int z) ->
      exists b, nth_error (or_mask high low) i = Some b /\
                (b = true <-> z > 10000 \/ z < -5000) /\
                (b = true <-> Z.abs z > 10000 \/ z < -5000) /\
                (z = 10000 \/ z = -5000 -> b = false)) /\
  (forall i : nat,
      nth_error (values amount) i = Some NaN ->
      nth_error (or_mask high low) i = Some false).
Proof.
  unfold gt, lt. intros Hh Hl.
  pose proof (outlier_mask (values amount) high low Hh Hl) as Hm.
  split; [rewrite Hm; apply length_map|].
  split.
  - intros i z Hz.
    destruct (traverse_nth _ _ _ i _ Hh Hz) as (h & Hfh & Hnh).
    destruct (traverse_nth _ _ _ i _ Hl Hz) as (l & Hfl & Hnl).
    cbn [cmp_scalar] in Hfh, Hfl. injection Hfh as <-. injection Hfl as <-.
    exists ((z >? 10000) || (z <? -5000)).
    split; [now apply or_mask_nth|].
    destruct (Z.gtb_spec z 10000), (Z.ltb_spec z (-5000)); cbn [orb];
      repeat split; intros Hcase;
      solve [reflexivity | discriminate Hcase | lia | exfalso; lia].
  - intros i Hn.
    destruct (traverse_nth _ _ _ i _ Hh Hn) as (h & Hfh & Hnh).
    destruct (traverse_nth _ _ _ i _ Hl Hn) as (l & Hfl & Hnl).
    cbn [cmp_scalar] in Hfh, Hfl. injection Hfh as <-. injection Hfl as <-.
    now apply (or_mask_nth high low i false false).
Qed.

(** Amounts on and next to the two bounds, and a missing one. *)
Lemma outlier_mask_bounds_example :
  exists high low,
    gt (Plain [Int 10000; Int 10001; Int (-5000); Int (-5001); NaN]) 10000 = Some high /\
    lt (Plain [Int 10000; Int 10001; Int (-5000); Int (-5001); NaN]) (-5000) = Some low /\
    or_mask high low = [false; true; false; true; false] /\
    nth_error (or_mask high low) 4 = Some false.
Proof.
  do 2 eexists. split; [reflexivity|]. split; [reflexivity|].
  split; [reflexivity|].
  exact (proj2 (proj2 (outlier_mask_bounds
                         (Plain [Int 10000; Int 10001; Int (-5000); Int (-5001); NaN])
                         _ _ eq_refl eq_refl)) 4%nat eq_refl).
Defined.
